(** * plt_MCC: ingestion, derivation and style allocation

    A shallow embedding of the core of [plt_MCC.py]: the text helpers the
    parser relies on, the MCC profile parser, the parameter derivations
    (energy, SSD, jaws, field of view), the depth selector of the profile
    plot and the colour / marker allocator with its persisted maps.

    Conventions.
    - A Python [str] is a [string]; the text is taken to be ASCII, so that
      [str.upper], [str.lower], [str.strip] and [str.split] act on bytes.
    - A Python [float] is a binary64 primitive float; [==], [<=], [abs] and
      the arithmetic are the IEEE operations, as in CPython.
    - A Python exception is an explicit outcome, [Raise]; [None] is [None].
    - The builtin [float(str)] is a parameter of the development
      ([float_of_str], [None] standing for [ValueError]). *)

From Stdlib Require Import Floats.PrimFloat Numbers.Cyclic.Int63.Uint63.
From Stdlib Require Import ZArith Lia Ascii String List Bool.
From stdpp Require Import gmap strings list fin_maps.

Set Warnings "-inexact-float".

(* stdpp freezes [String.append] under [simpl]; the proofs below compute
   with it. *)
#[local] Arguments String.append : simpl nomatch.

Local Open Scope string_scope.
Local Open Scope list_scope.

(* ===================================================================== *)
(** ** Outcomes of Python code *)
(* ===================================================================== *)

Inductive exn : Type :=
| ZeroDivisionError
| IndexError
| KeyError.

Inductive result (A : Type) : Type :=
| Ok (a : A)
| Raise (e : exn).

Arguments Ok {A} a.
Arguments Raise {A} e.

Definition bind {A B : Type} (r : result A) (k : A -> result B) : result B :=
  match r with
  | Ok a => k a
  | Raise e => Raise e
  end.

Notation "'let!' x ':=' r 'in' k" := (bind r (fun x => k))
  (at level 10, x name, r at level 100, k at level 200).

(* ===================================================================== *)
(** ** Python strings *)
(* ===================================================================== *)

Module PyStr.

(** [str.isspace] on one ASCII character: TAB, LF, VT, FF, CR, the four
    separators FS, GS, RS, US and the space. *)
Definition isspace (c : ascii) : bool :=
  let n := nat_of_ascii c in
  ((9 <=? n) && (n <=? 13) || (28 <=? n) && (n <=? 32))%nat.

Definition is_empty (s : string) : bool :=
  match s with
  | EmptyString => true
  | String _ _ => false
  end.

(** Truth value of a string: [bool(s)]. *)
Definition truthy (s : string) : bool := negb (is_empty s).

Fixpoint lstrip (s : string) : string :=
  match s with
  | EmptyString => EmptyString
  | String c r => if isspace c then lstrip r else s
  end.

Fixpoint rstrip (s : string) : string :=
  match s with
  | EmptyString => EmptyString
  | String c r =>
      let r' := rstrip r in
      if isspace c && is_empty r' then EmptyString else String c r'
  end.

(** [s.strip()] *)
Definition strip (s : string) : string := rstrip (lstrip s).

Definition upper_char (c : ascii) : ascii :=
  let n := nat_of_ascii c in
  if ((97 <=? n) && (n <=? 122))%nat then ascii_of_nat (n - 32) else c.

Definition lower_char (c : ascii) : ascii :=
  let n := nat_of_ascii c in
  if ((65 <=? n) && (n <=? 90))%nat then ascii_of_nat (n + 32) else c.

Fixpoint map_chars (f : ascii -> ascii) (s : string) : string :=
  match s with
  | EmptyString => EmptyString
  | String c r => String (f c) (map_chars f r)
  end.

(** [s.upper()] and [s.lower()] *)
Definition upper (s : string) : string := map_chars upper_char s.
Definition lower (s : string) : string := map_chars lower_char s.

(** [s.replace(old, new)] for one-character [old] and [new]. *)
Definition replace_char (old new : ascii) (s : string) : string :=
  map_chars (fun c => if Ascii.eqb c old then new else c) s.

(** [s.startswith(p)] *)
Fixpoint startswith (p s : string) : bool :=
  match p with
  | EmptyString => true
  | String a p' =>
      match s with
      | EmptyString => false
      | String b s' => Ascii.eqb a b && startswith p' s'
      end
  end.

(** [sub in s] *)
Fixpoint contains (sub s : string) : bool :=
  startswith sub s ||
  match s with
  | EmptyString => false
  | String _ r => contains sub r
  end.

(** [sep.join(parts)] *)
Fixpoint join (sep : string) (parts : list string) : string :=
  match parts with
  | [] => EmptyString
  | [p] => p
  | p :: rest => p ++ sep ++ join sep rest
  end.

Definition flush (tok : string) : list string :=
  if is_empty tok then [] else [tok].

Fixpoint split_go (tok : string) (s : string) : list string :=
  match s with
  | EmptyString => flush tok
  | String c r =>
      if isspace c then flush tok ++ split_go EmptyString r
      else split_go (tok ++ String c EmptyString) r
  end.

(** [s.split()]: the maximal runs of non-blank characters. *)
Definition split (s : string) : list string := split_go EmptyString s.

Fixpoint after_first (sep : ascii) (s : string) : option string :=
  match s with
  | EmptyString => None
  | String c r => if Ascii.eqb c sep then Some r else after_first sep r
  end.

(** [s.split(sep, 1)[1]]: what follows the first [sep]; [IndexError] when
    [s] has no [sep]. *)
Definition split1_snd (sep : ascii) (s : string) : result string :=
  match after_first sep s with
  | Some r => Ok r
  | None => Raise IndexError
  end.

(** Line boundaries of [str.splitlines] in ASCII: LF, VT, FF, CR, FS, GS,
    RS (CR LF counts once). *)
Definition is_linebreak (c : ascii) : bool :=
  let n := nat_of_ascii c in
  ((10 <=? n) && (n <=? 13) || (28 <=? n) && (n <=? 30))%nat.

Fixpoint splitlines_go (cur : string) (s : string) : list string :=
  match s with
  | EmptyString => flush cur
  | String c r =>
      if Ascii.eqb c "013" then
        match r with
        | String "010" r' => cur :: splitlines_go EmptyString r'
        | _ => cur :: splitlines_go EmptyString r
        end
      else if is_linebreak c then cur :: splitlines_go EmptyString r
      else splitlines_go (cur ++ String c EmptyString) r
  end.

(** [s.splitlines()] *)
Definition splitlines (s : string) : list string :=
  splitlines_go EmptyString s.

End PyStr.

(* ===================================================================== *)
(** ** Python floats *)
(* ===================================================================== *)

Module PyFloat.

(** [a / b] on floats: [ZeroDivisionError] exactly when [b == 0]. *)
Definition truediv (a b : float) : result float :=
  if PrimFloat.eqb b 0%float then Raise ZeroDivisionError
  else Ok (a / b)%float.

Definition digit_of (c : ascii) : option Z :=
  let n := nat_of_ascii c in
  if ((48 <=? n) && (n <=? 57))%nat then Some (Z.of_nat (n - 48)) else None.

(** Reads [digits] or [digits.digits]: the integer spelt by the digits
    and the number of digits after the point. *)
Fixpoint read_decimal (seen_dot : bool) (any : bool) (m : Z) (k : nat)
    (s : string) : option (Z * nat) :=
  match s with
  | EmptyString => if any then Some (m, k) else None
  | String c r =>
      match digit_of c with
      | Some d =>
          read_decimal seen_dot true (10 * m + d)
            (if seen_dot then S k else k) r
      | None =>
          if Ascii.eqb c "." && negb seen_dot
          then read_decimal true any m k r
          else None
      end
  end.

Definition of_Z (z : Z) : float := PrimFloat.of_uint63 (Uint63.of_Z z).

Definition of_decimal (neg : bool) (m : Z) (k : nat) : option float :=
  if (m <? 2 ^ 53)%Z && (k <=? 15)%nat then
    let q := (of_Z m / of_Z (10 ^ Z.of_nat k))%float in
    Some (if neg then (- q)%float else q)
  else None.

(** The plain decimal literals of [float(str)], [-12.5], [100], [.5],
    with at most 15 decimals and a significand below 2^53: there the
    quotient of two exactly represented integers is the correctly rounded
    value, which is what CPython returns. Everything else gives [None]:
    that is [float]'s [ValueError] on a text that is no number (["abc"]),
    but not its answer on exponents, [inf], [nan] or digit separators. The
    reader stands for [float_of_str] on concrete files that stay within
    the literals above and plain words. *)
Definition decimal (s : string) : option float :=
  let t := PyStr.strip s in
  let '(neg, body) :=
    match t with
    | String "-" r => (true, r)
    | String "+" r => (false, r)
    | _ => (false, t)
    end in
  match read_decimal false false 0 0 body with
  | Some (m, k) => of_decimal neg m k
  | None => None
  end.

End PyFloat.

(* ===================================================================== *)
(** ** Header metadata and its derivations *)
(* ===================================================================== *)

(** The header mapping is a Python dict, walked in insertion order by
    [_energy_from]: an association list, keys in upper case. *)
Definition Meta : Type := list (string * string).

Fixpoint dict_get (meta : Meta) (key : string) : option string :=
  match meta with
  | [] => None
  | (k, v) :: rest => if String.eqb k key then Some v else dict_get rest key
  end.

Definition DEFAULT_SAD_CM : float := 100%float.

(** [_pick(meta, *keys)]: the first value among [keys] that is present and
    not blank. *)
Fixpoint _pick (meta : Meta) (keys : list string) : option string :=
  match keys with
  | [] => None
  | key :: rest =>
      match dict_get meta key with
      | Some v => if PyStr.truthy (PyStr.strip v) then Some v else _pick meta rest
      | None => _pick meta rest
      end
  end.

(** [x or ""] for an optional string. *)
Definition or_empty (o : option string) : string :=
  match o with
  | Some v => if PyStr.truthy v then v else ""
  | None => ""
  end.

Definition ENERGY_KEYS : list string :=
  ["ENERGY"; "SCAN_ENERGY"; "BEAM_ENERGY"; "XRAY_ENERGY"].

(** [" ".join([f"{k}={v}" for k, v in meta.items()]).upper()] *)
Definition up_all_of (meta : Meta) : string :=
  PyStr.upper (PyStr.join " " (map (fun kv => (fst kv ++ "=" ++ snd kv)%string) meta)).

Definition _energy_from (meta : Meta) : option string :=
  match _pick meta ENERGY_KEYS with
  | None => None
  | Some energy =>
      if negb (PyStr.truthy energy) then None
      else
        let e := PyStr.strip energy in
        let up_all := up_all_of meta in
        let want_fff :=
          PyStr.contains "FFF" (PyStr.upper e)
          || PyStr.contains "FFF" up_all
          || (PyStr.contains "FLATTENING" up_all
              && (PyStr.contains "OFF" up_all || PyStr.contains "FREE" up_all)) in
        if negb (PyStr.contains "FFF" (PyStr.upper e)) && want_fff
        then Some (e ++ " FFF")%string
        else Some e
  end.

(** [_scale_jaw_to_100]: the one division of the derivations whose divisor
    is not a literal. *)
Definition _scale_jaw_to_100 (jaw_raw_cm d_ref_cm : option float)
    : result (option float) :=
  match jaw_raw_cm, d_ref_cm with
  | None, _ => Ok jaw_raw_cm
  | Some _, None => Ok jaw_raw_cm
  | Some jaw, Some d_ref =>
      if PrimFloat.eqb d_ref 0%float then Ok jaw_raw_cm
      else
        let! ratio := PyFloat.truediv DEFAULT_SAD_CM d_ref in
        Ok (Some (jaw * ratio)%float)
  end.

Section Derivation.

(** The builtin [float(str)]; [None] is [ValueError]. *)
Variable float_of_str : string -> option float.

Definition _as_float (txt : option string) : option float :=
  match txt with
  | None => None
  | Some t => float_of_str (PyStr.replace_char "," "." (PyStr.strip t))
  end.

(** Division by the literal [10.0] cannot raise and is written [/]. *)
Definition _ssd_cm_from_mm (meta : Meta) : option float :=
  match _as_float (_pick meta ["SSD"; "SCAN_SSD"; "SOURCE_SURFACE_DISTANCE"; "DSP"]) with
  | None => None
  | Some val => Some (val / 10)%float
  end.

Definition _jaws_from (meta : Meta) (depth_mm_for_guess : option float)
    : option float * option float * option float :=
  let jawx := _as_float (_pick meta ["JAW_X"; "FIELD_X"; "COLL_X"]) in
  let jawy := _as_float (_pick meta ["JAW_Y"; "FIELD_Y"; "COLL_Y"]) in
  let '(jawx, jawy) :=
    match jawx, jawy with
    | Some _, Some _ => (jawx, jawy)
    | _, _ =>
        let rf_x_mm := _as_float (_pick meta ["FIELD_INPLANE"; "FIELD_INPLANE"]) in
        let rf_y_mm := _as_float (_pick meta ["FIELD_CROSSPLANE"; "FIELD_CROSSPLANE"]) in
        match rf_x_mm, rf_y_mm with
        | Some x, Some y => (Some (x / 10)%float, Some (y / 10)%float)
        | _, _ => (jawx, jawy)
        end
    end in
  let ssd_cm := _ssd_cm_from_mm meta in
  let refdef :=
    PyStr.upper (PyStr.strip
      (or_empty (_pick meta ["FIELD_DEFINED"; "FIELD_REFERENCE"; "FIELD_AT"]))) in
  let ref_depth_cm :=
    match _as_float (_pick meta ["FIELD_DEPTH"]) with
    | Some v => Some (v / 10)%float
    | None => None
    end in
  let d_ref :=
    if PyStr.contains "ISO" refdef || PyStr.contains "ISOCENTER" refdef
       || PyStr.contains "SAD" refdef
    then Some DEFAULT_SAD_CM
    else
      match PyStr.contains "SSD" refdef, ssd_cm with
      | true, Some ssd => Some ssd
      | _, _ =>
          match PyStr.contains "DEPTH" refdef, ssd_cm, ref_depth_cm with
          | true, Some ssd, Some rd => Some (ssd + rd)%float
          | _, _, _ => None
          end
      end in
  let d_ref :=
    match d_ref with
    | Some _ => d_ref
    | None =>
        let depth_cm_guess :=
          match depth_mm_for_guess with
          | None => None
          | Some d => Some (d / 10)%float
          end in
        match ssd_cm, depth_cm_guess with
        | Some ssd, Some g => Some (ssd + g)%float
        | Some ssd, None => Some ssd
        | None, _ => None
        end
    end in
  (jawx, jawy, d_ref).

Definition _fov_at_depth_pair (meta : Meta) (depth_cm : float)
    : result (option (float * float)) :=
  match _ssd_cm_from_mm meta with
  | None => Ok None
  | Some ssd_cm =>
      let '(jawx, jawy, d_ref) := _jaws_from meta (Some (depth_cm * 10)%float) in
      let! jawx100 := _scale_jaw_to_100 jawx d_ref in
      let! jawy100 := _scale_jaw_to_100 jawy d_ref in
      match jawx100, jawy100 with
      | Some jx, Some jy =>
          let fx := (jx * (ssd_cm + depth_cm) / DEFAULT_SAD_CM)%float in
          let fy := (jy * (ssd_cm + depth_cm) / DEFAULT_SAD_CM)%float in
          Ok (Some (fx, fy))
      | _, _ => Ok None
      end
  end.

End Derivation.

(* ===================================================================== *)
(** ** Profile curves and the MCC profile parser *)
(* ===================================================================== *)

(** One entry [{"depth_mm": ..., "xs": ..., "ys": ...}] of the parser's
    result. *)
Record Curve : Type := mkCurve {
  depth_mm : option float;
  xs : list float;
  ys : list float
}.

(** The local variables of [parse_mcc_profiles_all]. *)
Record PState : Type := mkPState {
  current_kind : option string;
  current_depth : option float;
  in_data : bool;
  buf_xs : list float;
  buf_ys : list float;
  res : gmap string (list Curve)
}.

Definition set_kind (k : option string) (st : PState) : PState :=
  mkPState k (current_depth st) (in_data st) (buf_xs st) (buf_ys st) (res st).

Definition set_depth (d : option float) (st : PState) : PState :=
  mkPState (current_kind st) d (in_data st) (buf_xs st) (buf_ys st) (res st).

Definition set_in_data (b : bool) (st : PState) : PState :=
  mkPState (current_kind st) (current_depth st) b (buf_xs st) (buf_ys st) (res st).

Definition set_bufs (bx by_ : list float) (st : PState) : PState :=
  mkPState (current_kind st) (current_depth st) (in_data st) bx by_ (res st).

Definition set_res (r : gmap string (list Curve)) (st : PState) : PState :=
  mkPState (current_kind st) (current_depth st) (in_data st) (buf_xs st) (buf_ys st) r.

Definition nonempty {A : Type} (l : list A) : bool :=
  match l with
  | [] => false
  | _ :: _ => true
  end.

Definition is_profile_kind (k : option string) : bool :=
  match k with
  | Some s => String.eqb s "inplane" || String.eqb s "crossplane"
  | None => false
  end.

(** The inner function [commit]: [result[current_kind].append(...)] when the
    kind is a profile kind and both buffers hold something, then fresh
    buffers. *)
Definition commit (st : PState) : result PState :=
  let! r :=
    match current_kind st with
    | Some k =>
        if is_profile_kind (Some k) && nonempty (buf_xs st) && nonempty (buf_ys st)
        then
          match res st !! k with
          | Some l =>
              Ok (<[k := l ++ [mkCurve (current_depth st) (buf_xs st) (buf_ys st)]]> (res st))
          | None => Raise KeyError
          end
        else Ok (res st)
    | None => Ok (res st)
    end in
  Ok (set_bufs [] [] (set_res r st)).

Definition kind_truthy (k : option string) : bool :=
  match k with
  | Some s => PyStr.truthy s
  | None => false
  end.

Section Parser.

Variable float_of_str : string -> option float.

(** The body of the [try] that reads one sample: the first token is
    appended to [xs] as soon as it converts, before the second token is
    converted. *)
Definition read_sample (p0 p1 : string) (st : PState) : PState :=
  match float_of_str p0 with
  | None => st
  | Some x =>
      let st1 := set_bufs (buf_xs st ++ [x]) (buf_ys st) st in
      match float_of_str p1 with
      | None => st1
      | Some y => set_bufs (buf_xs st1) (buf_ys st1 ++ [y]) st1
      end
  end.

(** One turn of the loop [for raw in lines]. *)
Definition step (st : PState) (raw : string) : result PState :=
  let line := PyStr.strip raw in
  if PyStr.startswith "SCAN_CURVETYPE=" line then
    let! st1 :=
      (if in_data st
       then let! c := commit st in Ok (set_in_data false c)
       else Ok st) in
    let! v := PyStr.split1_snd "=" line in
    let val := PyStr.upper (PyStr.strip v) in
    if PyStr.contains "INPLANE_PROFILE" val then Ok (set_kind (Some "inplane") st1)
    else if PyStr.contains "CROSSPLANE_PROFILE" val then Ok (set_kind (Some "crossplane") st1)
    else Ok (set_kind None st1)
  else if PyStr.startswith "SCAN_DEPTH=" line then
    let! v := PyStr.split1_snd "=" line in
    Ok (set_depth (float_of_str (PyStr.strip v)) st)
  else if PyStr.contains "BEGIN_DATA" line then
    Ok (set_bufs [] [] (set_in_data true st))
  else if PyStr.contains "END_DATA" line then
    let! st1 := (if in_data st then commit st else Ok st) in
    Ok (set_in_data false st1)
  else if in_data st && kind_truthy (current_kind st) then
    match PyStr.split line with
    | p0 :: p1 :: _ => Ok (read_sample p0 p1 st)
    | _ => Ok st
    end
  else Ok st.

Fixpoint run (st : PState) (lines : list string) : result PState :=
  match lines with
  | [] => Ok st
  | raw :: rest => let! st' := step st raw in run st' rest
  end.

Definition init_state : PState :=
  mkPState None None false [] []
    (<["crossplane" := []]> (<["inplane" := []]> ∅)).

(** [if not result[k]: result.pop(k, None)] *)
Definition drop_if_empty (k : string) (r : gmap string (list Curve))
    : result (gmap string (list Curve)) :=
  match r !! k with
  | Some [] => Ok (delete k r)
  | Some (_ :: _) => Ok r
  | None => Raise KeyError
  end.

Definition finish (st : PState) : result (gmap string (list Curve)) :=
  let! st1 := (if in_data st then commit st else Ok st) in
  let! r1 := drop_if_empty "inplane" (res st1) in
  drop_if_empty "crossplane" r1.

Definition parse_lines (lines : list string) : result (gmap string (list Curve)) :=
  let! st := run init_state lines in
  finish st.

(** [parse_mcc_profiles_all]: [content] is the decoded text of the file,
    [None] when it cannot be read (the function then returns [{}]). *)
Definition parse_mcc_profiles_all (content : option string)
    : result (gmap string (list Curve)) :=
  match content with
  | None => Ok ∅
  | Some text => parse_lines (PyStr.splitlines text)
  end.

End Parser.

(* ===================================================================== *)
(** ** Depth selection of the profile plot *)
(* ===================================================================== *)

(** The inner function [match_depths] of [_plot_profiles_for_row]. *)
Definition depth_close (dmm target_cm : float) : bool :=
  (abs (dmm / 10 - target_cm) <=? 0.05)%float.

Definition match_depths (seq : list Curve) (target_cm : float)
    : list (list float * list float) :=
  fold_left
    (fun out e =>
       match depth_mm e with
       | None => out
       | Some dmm =>
           if depth_close dmm target_cm then out ++ [(xs e, ys e)] else out
       end)
    seq [].

(** [profiles.get(k, [])] *)
Definition profile_list (profiles : gmap string (list Curve)) (k : string)
    : list Curve :=
  default [] (profiles !! k).

(** The series drawn for one target depth: the in-plane matches when
    in-plane is requested, then the cross-plane ones likewise, each tagged
    with its orientation. *)
Definition series_for_depth (profiles : gmap string (list Curve))
    (want_in want_cross : bool) (depth_cm : float)
    : list (string * (list float * list float)) :=
  let inplane_list := profile_list profiles "inplane" in
  let cross_list := profile_list profiles "crossplane" in
  (if want_in && nonempty inplane_list
   then map (fun c => ("inplane", c)) (match_depths inplane_list depth_cm)
   else [])
  ++
  (if want_cross && nonempty cross_list
   then map (fun c => ("crossplane", c)) (match_depths cross_list depth_cm)
   else []).

(* ===================================================================== *)
(** ** Style allocation *)
(* ===================================================================== *)

Definition OKABE_ITO : list string :=
  ["#0072B2"; "#E69F00"; "#009E73"; "#D55E00";
   "#CC79A7"; "#56B4E9"; "#F0E442"; "#000000"].

Definition MARKER_POOL : list string :=
  ["o"; "s"; "^"; "v"; "d"; "p"; "h"; "x"; "*"; "+"; "<"; ">"; "."].

(** The part of [prefs["global"]] the allocators touch. A key of the
    document that is missing is [None]: [g.get(KEY, {})] then starts from a
    fresh dict. *)
Record Global : Type := mkGlobal {
  color_maps : option (gmap string (gmap string string));
  marker_maps : option (gmap string (gmap string string))
}.

(** The application state seen by the allocators: the preferences held in
    memory and the documents handed to [save_prefs], latest first. *)
Record App : Type := mkApp {
  prefs : Global;
  saved : list Global
}.

Definition _normalize_key (text : string) : string :=
  PyStr.lower (PyStr.strip text).

(** The loop [for val in pool: if val not in used_set: ... return val]. *)
Fixpoint first_unused (used_set : gset string) (pool : list string)
    : option string :=
  match pool with
  | [] => None
  | val :: rest =>
      if decide (val ∈ used_set) then first_unused used_set rest else Some val
  end.

Definition _next_from_pool (used_set : gset string) (pool : list string)
    : result string :=
  match first_unused used_set pool with
  | Some val => Ok val
  | None =>
      match pool !! (size used_set `mod` Nat.max 1 (length pool))%nat with
      | Some val => Ok val
      | None => Raise IndexError
      end
  end.

(** [maps.setdefault(key, {})] *)
Definition setdefault_empty (key : string)
    (maps : gmap string (gmap string string))
    : gmap string (gmap string string) :=
  match maps !! key with
  | Some _ => maps
  | None => <[key := ∅]> maps
  end.

(** [set(param_map.values())] *)
Definition used_symbols (param_map : gmap string string) : gset string :=
  map_img param_map.

Definition set_color_maps (m : gmap string (gmap string string)) (g : Global)
    : Global :=
  mkGlobal (Some m) (marker_maps g).

Definition set_marker_maps (m : gmap string (gmap string string)) (g : Global)
    : Global :=
  mkGlobal (color_maps g) (Some m).

Definition _get_color_for (app : App) (param_name value : string)
    : result (string * App) :=
  let g := prefs app in
  let key := if PyStr.truthy param_name then param_name else "default" in
  let maps := setdefault_empty key (default ∅ (color_maps g)) in
  (* [setdefault] acts on the dict held by [g] when [g] has one *)
  let g_touched :=
    match color_maps g with
    | Some _ => set_color_maps maps g
    | None => g
    end in
  let norm_val := _normalize_key value in
  match maps !! key with
  | None => Raise KeyError
  | Some param_map =>
      match param_map !! norm_val with
      | Some sym => Ok (sym, mkApp g_touched (saved app))
      | None =>
          let used := used_symbols param_map in
          let! sym := _next_from_pool used OKABE_ITO in
          let param_map' := <[norm_val := sym]> param_map in
          let g' := set_color_maps (<[key := param_map']> maps) g in
          match param_map' !! norm_val with
          | Some out => Ok (out, mkApp g' (g' :: saved app))
          | None => Raise KeyError
          end
      end
  end.

Definition _get_marker_for (app : App) (param_name value : string)
    : result (string * App) :=
  if negb (PyStr.truthy param_name) then Ok ("o", app)
  else
    let g := prefs app in
    let maps := setdefault_empty param_name (default ∅ (marker_maps g)) in
    let g_touched :=
      match marker_maps g with
      | Some _ => set_marker_maps maps g
      | None => g
      end in
    let norm_val := _normalize_key value in
    match maps !! param_name with
    | None => Raise KeyError
    | Some param_map =>
        match param_map !! norm_val with
        | Some sym => Ok (sym, mkApp g_touched (saved app))
        | None =>
            let used := used_symbols param_map in
            let! sym := _next_from_pool used MARKER_POOL in
            let param_map' := <[norm_val := sym]> param_map in
            let g' := set_marker_maps (<[param_name := param_map']> maps) g in
            match param_map' !! norm_val with
            | Some out => Ok (out, mkApp g' (g' :: saved app))
            | None => Raise KeyError
            end
        end
    end.

(** [_default_prefs()], restricted to the two style maps. *)
Definition default_app : App :=
  mkApp (mkGlobal (Some ∅) (Some ∅)) [].

(** The namespace's map as a caller reads it: [maps.get(ns, {})]. *)
Definition color_map_of (app : App) (ns : string) : gmap string string :=
  default ∅ (default ∅ (color_maps (prefs app)) !! ns).

Definition marker_map_of (app : App) (ns : string) : gmap string string :=
  default ∅ (default ∅ (marker_maps (prefs app)) !! ns).

(** Allocating colours for a list of values in one namespace, in order. *)
Fixpoint colors_for (app : App) (ns : string) (values : list string)
    : result (list string * App) :=
  match values with
  | [] => Ok ([], app)
  | v :: rest =>
      let! r := _get_color_for app ns v in
      let! rs := colors_for (snd r) ns rest in
      Ok (fst r :: fst rs, snd rs)
  end.

(* ===================================================================== *)
(** ** Header scanning, number lists, depth dose and display transforms *)
(* ===================================================================== *)

(* ===================================================================== *)
(** ** Header extraction *)
(* ===================================================================== *)

(** [kv[key] = value] on an insertion-ordered dict: an existing key keeps
    its place, a new one goes last. *)
Fixpoint dict_set (meta : Meta) (key value : string) : Meta :=
  match meta with
  | [] => [(key, value)]
  | (k, v) :: rest =>
      if String.eqb k key then (k, value) :: rest
      else (k, v) :: dict_set rest key value
  end.

(** The class [[A-Za-z0-9_]] of [KV_RE]. *)
Definition is_word_char (c : ascii) : bool :=
  let n := nat_of_ascii c in
  ((48 <=? n) && (n <=? 57) || (65 <=? n) && (n <=? 90)
   || (97 <=? n) && (n <=? 122) || (n =? 95))%nat.

(** The longest run of word characters at the head of a text, and what
    follows it. *)
Fixpoint span_word (s : string) : string * string :=
  match s with
  | EmptyString => (EmptyString, EmptyString)
  | String c r =>
      if is_word_char c
      then (String c (fst (span_word r)), snd (span_word r))
      else (EmptyString, s)
  end.

Fixpoint has_char (p : ascii -> bool) (s : string) : bool :=
  match s with
  | EmptyString => false
  | String c r => p c || has_char p r
  end.

Definition is_LF (c : ascii) : bool := Ascii.eqb c "010".

(** [KV_RE.match(raw)] for
    [KV_RE = ^\s*([A-Za-z0-9_]+)\s*=\s*(.+?)\s*$], as the pair of
    [group(1)] and [group(2).strip()].
    - [^\s*] and the key: the blanks are skipped and the key is the whole
      run of word characters found there (the classes are disjoint, so no
      shorter choice can match);
    - [\s*=]: blanks, then the sign;
    - [\s*(.+?)\s*$]: [.] excludes the line feed and the group is lazy, so
      the group is the text between the first and the last character that
      is not a blank, when there is one and no line feed lies in between;
      when only blanks follow the sign the group is one blank other than a
      line feed, if there is one, and strips to the empty text. *)
Definition kv_match (raw : string) : option (string * string) :=
  let after_blanks := PyStr.lstrip raw in
  let key := fst (span_word after_blanks) in
  if PyStr.is_empty key then None
  else
    match PyStr.lstrip (snd (span_word after_blanks)) with
    | String "=" rest =>
        let value := PyStr.strip rest in
        if PyStr.is_empty value then
          if has_char (fun c => negb (is_LF c)) rest then Some (key, EmptyString)
          else None
        else if has_char is_LF value then None
        else Some (key, value)
    | _ => None
    end.

(** One turn of the loop of [_scan_keyvals]. *)
Definition scan_line (kv : Meta) (raw : string) : Meta :=
  if PyStr.contains "BEGIN_DATA" raw || PyStr.contains "END_DATA" raw then kv
  else
    match kv_match raw with
    | Some (key, value) => dict_set kv (PyStr.upper key) (PyStr.strip value)
    | None => kv
    end.

Definition _scan_keyvals (lines : list string) : Meta :=
  fold_left scan_line lines [].

(** [_dose_rate_from] *)
Definition _dose_rate_from (meta : Meta) : option string :=
  _pick meta ["DOSE_RATE"; "MU_PER_MIN"; "DOSE_RATE_MU_MIN"].

(** [_orientation_from] *)
Definition _orientation_from (meta : Meta) : option string :=
  let orient :=
    PyStr.upper (PyStr.strip (or_empty (_pick meta ["DETECTOR_ORIENTATION"]))) in
  if PyStr.startswith "HOR" orient then Some "Radial"
  else if PyStr.startswith "VER" orient then Some "Axial"
  else None.

(** [_infer_mode]; [meta.get("MEAS_PRESET") or ""]. *)
Definition _infer_mode (meta : Meta) : option string :=
  let preset := PyStr.upper (PyStr.strip (or_empty (dict_get meta "MEAS_PRESET"))) in
  if PyStr.contains "MEAS_CONTINUOUS" preset then Some "continuous"
  else if PyStr.contains "REFERENCE_DOSEMETER" preset then Some "step"
  else None.

(** [s.split(sep)] for a one-character separator: the fields between the
    separators, empty ones included. *)
Fixpoint split_on_go (sep : ascii) (cur : string) (s : string) : list string :=
  match s with
  | EmptyString => [cur]
  | String c r =>
      if Ascii.eqb c sep then cur :: split_on_go sep EmptyString r
      else split_on_go sep (cur ++ String c EmptyString) r
  end.

Definition split_on (sep : ascii) (s : string) : list string :=
  split_on_go sep EmptyString s.

Section CsvParsing.

Variable float_of_str : string -> option float.

(** The builtin [round(x, 2)]. *)
Variable round2 : float -> float.

(** The loop shared by [_parse_csv_floats] and [_parse_depth_csv_cm]:
    [for part in str(txt).replace(";", ",").split(","): ...]. *)
Definition csv_values (txt : string) : list float :=
  fold_left
    (fun out part =>
       match _as_float float_of_str (Some part) with
       | Some val => out ++ [val]
       | None => out
       end)
    (split_on "," (PyStr.replace_char ";" "," txt)) [].

Definition _parse_csv_floats (txt : string) : list float := csv_values txt.

(** [key in seen] for a set of floats: equality is [==]. *)
Definition float_in (key : float) (seen : list float) : bool :=
  existsb (fun s => PrimFloat.eqb s key) seen.

(** The second loop of [_parse_depth_csv_cm], on the pair [(seen, out)]. *)
Definition dedup_step (acc : list float * list float) (depth : float)
    : list float * list float :=
  let key := round2 depth in
  if float_in key (fst acc) then acc
  else (fst acc ++ [key], snd acc ++ [depth]).

Definition _parse_depth_csv_cm (txt : string) : list float :=
  snd (fold_left dedup_step (csv_values txt) ([], [])).

(** [_gantry_from] and [_sid_from] *)
Definition _gantry_from (meta : Meta) : option float :=
  _as_float float_of_str
    (_pick meta ["GANTRY"; "GANTRY_ANGLE"; "SCAN_GANTRY"; "BEAM_ANGLE"]).

Definition _sid_from (meta : Meta) : option float :=
  _as_float float_of_str (_pick meta ["SID"; "SOURCE_IMAGE_DISTANCE"; "SAD"]).

End CsvParsing.

(* ===================================================================== *)
(** ** The depth-dose parser *)
(* ===================================================================== *)

(** [next(i for i, l in enumerate(lines) if p(l))]; [None] is
    [StopIteration]. *)
Fixpoint find_index (p : string -> bool) (lines : list string) : option nat :=
  match lines with
  | [] => None
  | l :: rest => if p l then Some 0%nat else option_map S (find_index p rest)
  end.

(** [lines[a:b]] for indices that are not negative. *)
Definition slice {A : Type} (a b : nat) (l : list A) : list A :=
  firstn (b - a) (skipn a l).

(** [xs or None] *)
Definition or_none {A : Type} (l : list A) : option (list A) :=
  match l with
  | [] => None
  | _ :: _ => Some l
  end.

Section DepthDose.

Variable float_of_str : string -> option float.

(** The body of the loop of [parse_mcc_pdd] on the pair [(xs, ys)]: as in
    the profile parser, the abscissa is appended before the ordinate is
    converted. *)
Definition pdd_sample (acc : list float * list float) (line : string)
    : list float * list float :=
  match PyStr.split line with
  | p0 :: p1 :: _ =>
      match float_of_str p0 with
      | None => acc
      | Some x =>
          match float_of_str p1 with
          | None => (fst acc ++ [x], snd acc)
          | Some y => (fst acc ++ [x], snd acc ++ [y])
          end
      end
  | _ => acc
  end.

Definition pdd_block (block : list string)
    : option (list float) * option (list float) :=
  let r := fold_left pdd_sample block ([], []) in
  (or_none (fst r), or_none (snd r)).

Definition parse_pdd_lines (lines : list string)
    : option (list float) * option (list float) :=
  match find_index (PyStr.contains "BEGIN_DATA") lines with
  | None => (None, None)
  | Some i0 =>
      match find_index (PyStr.contains "END_DATA") lines with
      | None => (None, None)
      | Some i1 => pdd_block (slice (i0 + 1) i1 lines)
      end
  end.

(** [parse_mcc_pdd]; [content] is the text of the file, [None] when it
    cannot be read. *)
Definition parse_mcc_pdd (content : option string)
    : option (list float) * option (list float) :=
  match content with
  | None => (None, None)
  | Some text => parse_pdd_lines (PyStr.splitlines text)
  end.

End DepthDose.

(* ===================================================================== *)
(** ** Normalisation and the transform of a curve *)
(* ===================================================================== *)

(** [max(v, *rest)]: the running maximum is replaced by an item that is
    greater. *)
Fixpoint py_max_go (m : float) (l : list float) : float :=
  match l with
  | [] => m
  | v :: rest => py_max_go (if PrimFloat.ltb m v then v else m) rest
  end.

(** [min(v, *rest)] *)
Fixpoint py_min_go (m : float) (l : list float) : float :=
  match l with
  | [] => m
  | v :: rest => py_min_go (if PrimFloat.ltb v m then v else m) rest
  end.

(** [[f(v) for v in l]] for an [f] that can raise. *)
Fixpoint map_result {A B : Type} (f : A -> result B) (l : list A)
    : result (list B) :=
  match l with
  | [] => Ok []
  | a :: rest =>
      let! b := f a in
      let! bs := map_result f rest in
      Ok (b :: bs)
  end.

Definition normalize (values : list float) : result (list float) :=
  match values with
  | [] => Ok []
  | v :: rest =>
      let maximum := py_max_go v rest in
      if PrimFloat.eqb maximum 0%float then Ok values
      else map_result (fun x => PyFloat.truediv x maximum) values
  end.

(** The three numbers of a row that [_transform_xy] reads. *)
Record Transform : Type := mkTransform {
  x_shift : float;
  y_scale : float;
  y_offset : float
}.

(** [_transform_xy]; [normalize_on] is [self.normalize_var.get()]. *)
Definition _transform_xy (normalize_on : bool) (xs ys : list float)
    (row : Transform) : result (list float * list float) :=
  let xs_t := map (fun x => (x + x_shift row)%float) xs in
  let ys_t := map (fun y => ((y + y_offset row) * y_scale row)%float) ys in
  let! ys_n := (if normalize_on then normalize ys_t else Ok ys_t) in
  Ok (xs_t, ys_n).

(* ===================================================================== *)
(** ** Step of a list of positions *)
(* ===================================================================== *)

(** The loop over [zip(xs[:-1], xs[1:])]: the differences of neighbours
    that exceed [1e-6]. *)
Fixpoint step_diffs (xs : list float) : list float :=
  match xs with
  | a :: (b :: _) as rest =>
      let d := abs (b - a)%float in
      if PrimFloat.ltb 1e-6%float d then d :: step_diffs rest
      else step_diffs rest
  | _ => []
  end.

Section StepPositions.

Variable float_of_str : string -> option float.

(** [_step_from_positions_csv]; [if not csv_txt] holds for [None] and for
    the empty text. *)
Definition _step_from_positions_csv (csv_txt : option string)
    : option (float * float * bool) :=
  match csv_txt with
  | None => None
  | Some txt =>
      if PyStr.is_empty txt then None
      else
        let xs := _parse_csv_floats float_of_str txt in
        if (length xs <? 2)%nat then None
        else
          match step_diffs xs with
          | [] => None
          | d :: ds =>
              let dmin := py_min_go d ds in
              let dmax := py_max_go d ds in
              Some (dmin, dmax, PrimFloat.leb (abs (dmax - dmin)%float) 1e-3%float)
          end
  end.

End StepPositions.


(* ===================================================================== *)
(** ** Vocabulary of the statements *)
(* ===================================================================== *)

(** Blank text: every character is a blank. *)
Fixpoint all_space (s : string) : bool :=
  match s with
  | EmptyString => true
  | String c r => PyStr.isspace c && all_space r
  end.

(** What [_scale_jaw_to_100] returns, the division carried out. *)
Definition scaled_jaw (jaw_raw_cm d_ref_cm : option float) : option float :=
  match jaw_raw_cm, d_ref_cm with
  | Some jaw, Some d =>
      if PrimFloat.eqb d 0%float then jaw_raw_cm
      else Some (jaw * (100 / d))%float
  | _, _ => jaw_raw_cm
  end.

(** A profile block as a file spells it: the orientation line, the depth
    line and the data lines between the two markers. *)
Record Block : Type := mkBlock {
  b_cross : bool;
  b_depth : string;
  b_lines : list string
}.

Definition block_kind (b : Block) : string :=
  if b_cross b then "crossplane" else "inplane".

Definition render_block (b : Block) : list string :=
  [if b_cross b then "SCAN_CURVETYPE=CROSSPLANE_PROFILE"
   else "SCAN_CURVETYPE=INPLANE_PROFILE";
   ("SCAN_DEPTH=" ++ b_depth b)%string;
   "BEGIN_DATA"]
  ++ b_lines b ++ ["END_DATA"].

Section DerivedVocabulary.

Variable float_of_str : string -> option float.

(** The jaw dimensions brought to the 100 cm plane, the reference plane
    being resolved with [depth_cm] as the depth hint. *)
Definition jaw100_at (meta : Meta) (depth_cm : float)
    : result (option float * option float) :=
  let j := _jaws_from float_of_str meta (Some (depth_cm * 10)%float) in
  let! jawx100 := _scale_jaw_to_100 (fst (fst j)) (snd j) in
  let! jawy100 := _scale_jaw_to_100 (snd (fst j)) (snd j) in
  Ok (jawx100, jawy100).

(** A line yields a sample when its first two tokens both convert. *)
Definition yields_sample (line : string) : bool :=
  match PyStr.split (PyStr.strip line) with
  | p0 :: p1 :: _ =>
      match float_of_str p0, float_of_str p1 with
      | Some _, Some _ => true
      | _, _ => false
      end
  | _ => false
  end.

(** The sample a data line stands for: it is not a directive or a marker
    and its first two tokens convert. *)
Definition sample_of (line : string) : option (float * float) :=
  let l := PyStr.strip line in
  if PyStr.startswith "SCAN_CURVETYPE=" l || PyStr.startswith "SCAN_DEPTH=" l
     || PyStr.contains "BEGIN_DATA" l || PyStr.contains "END_DATA" l
  then None
  else
    match PyStr.split l with
    | p0 :: p1 :: _ =>
        match float_of_str p0, float_of_str p1 with
        | Some x, Some y => Some (x, y)
        | _, _ => None
        end
    | _ => None
    end.

Fixpoint samples_of (lines : list string) : list (float * float) :=
  match lines with
  | [] => []
  | l :: rest =>
      match sample_of l with
      | Some p => p :: samples_of rest
      | None => samples_of rest
      end
  end.

(** The curve a block should give. *)
Definition curve_of_block (b : Block) : Curve :=
  mkCurve (float_of_str (b_depth b))
    (map fst (samples_of (b_lines b))) (map snd (samples_of (b_lines b))).

(** A well-formed block: at least one data line, every data line a
    sample, the depth text without blanks around it. *)
Definition well_formed (b : Block) : Prop :=
  b_lines b <> []
  /\ PyStr.strip (b_depth b) = b_depth b
  /\ forall l, In l (b_lines b) -> is_Some (sample_of l).

End DerivedVocabulary.

Definition inplane_blocks (bs : list Block) : list Block :=
  List.filter (fun b => negb (b_cross b)) bs.

Definition crossplane_blocks (bs : list Block) : list Block :=
  List.filter b_cross bs.

(** A header with SSD 900 mm and 10 x 10 jaws defined at the isocentre. *)
Definition meta_iso_10x10 : Meta :=
  [("SSD", "900"); ("JAW_X", "10"); ("JAW_Y", "10"); ("FIELD_DEFINED", "ISOCENTER")].

Definition pair_of (e : Curve) : list float * list float := (xs e, ys e).

(** A curve is kept for a target when it carries a depth whose tenth lies
    within 0.05 of the target. *)
Definition within_tolerance (target_cm : float) (e : Curve) : bool :=
  match depth_mm e with
  | Some dmm => depth_close dmm target_cm
  | None => false
  end.

Definition requested (want_in want_cross : bool) (o : string) : bool :=
  (String.eqb o "inplane" && want_in) || (String.eqb o "crossplane" && want_cross).

Definition good_curve (c : Curve) : Prop := xs c <> [] /\ ys c <> [].

(** The result dict keeps its two keys, and holds only curves with
    samples. *)
Definition res_ok (r : gmap string (list Curve)) : Prop :=
  is_Some (r !! "inplane") /\ is_Some (r !! "crossplane")
  /\ (forall k l, r !! k = Some l ->
        (k = "inplane" \/ k = "crossplane") /\ Forall good_curve l).

(** What is left of a result once the empty lists are dropped. *)
Definition emitted_ok (r : gmap string (list Curve)) : Prop :=
  forall k l, r !! k = Some l ->
    (k = "inplane" \/ k = "crossplane") /\ l <> [] /\ Forall good_curve l.

(** One in-plane block at depth 100 whose first line has a number followed
    by a word. *)
Definition half_sample_file : string := "SCAN_CURVETYPE=INPLANE_PROFILE
SCAN_DEPTH=100.0
BEGIN_DATA
1.0 abc
2.0 3.0
END_DATA
".

(** The key under which [_get_color_for] files a parameter name. *)
Definition color_ns (param_name : string) : string :=
  if PyStr.truthy param_name then param_name else "default".

Section AllocatorCore.

Variable pool : list string.
Variable get_maps : Global -> option (gmap string (gmap string string)).
Variable set_maps : gmap string (gmap string string) -> Global -> Global.

(** The body shared by [_get_color_for] and [_get_marker_for], the pool
    and the map of the document being the two things that differ. *)
Definition allocate (app : App) (key value : string) : result (string * App) :=
  let g := prefs app in
  let maps := setdefault_empty key (default ∅ (get_maps g)) in
  let g_touched :=
    match get_maps g with
    | Some _ => set_maps maps g
    | None => g
    end in
  let norm_val := _normalize_key value in
  match maps !! key with
  | None => Raise KeyError
  | Some param_map =>
      match param_map !! norm_val with
      | Some sym => Ok (sym, mkApp g_touched (saved app))
      | None =>
          let used := used_symbols param_map in
          let! sym := _next_from_pool used pool in
          let param_map' := <[norm_val := sym]> param_map in
          let g' := set_maps (<[key := param_map']> maps) g in
          match param_map' !! norm_val with
          | Some out => Ok (out, mkApp g' (g' :: saved app))
          | None => Raise KeyError
          end
      end
  end.

(** The namespace's map as a caller reads it. *)
Definition ns_map (app : App) (ns : string) : gmap string string :=
  default ∅ (default ∅ (get_maps (prefs app)) !! ns).

(** The state after a fresh assignment of [sym] to [norm] under [key]. *)
Definition assigned (app : App) (key norm sym : string) : App :=
  let g' :=
    set_maps (<[key := <[norm := sym]> (ns_map app key)]>
                (default ∅ (get_maps (prefs app)))) (prefs app) in
  mkApp g' (g' :: saved app).

End AllocatorCore.

(** Nine values, and the store once they have each been given a colour in
    the namespace "energy", starting from the default preferences. *)
Definition nine_values : list string :=
  ["v1"; "v2"; "v3"; "v4"; "v5"; "v6"; "v7"; "v8"; "v9"].

Definition app_after_nine : App :=
  match colors_for default_app "energy" nine_values with
  | Ok r => snd r
  | Raise _ => default_app
  end.

(** A store in which the namespace "energy" already holds one value. *)
Definition app_energy_10 : App :=
  mkApp (mkGlobal (Some (<["energy" := <["10" := "#0072B2"]> ∅]> ∅)) (Some ∅)) [].

(** *** Vocabulary of the further properties *)

(** What a line contributes to the header: nothing for a line that holds
    a data marker or does not match, else the key in upper case and the
    value. *)
Definition header_entry (raw : string) : option (string * string) :=
  if PyStr.contains "BEGIN_DATA" raw || PyStr.contains "END_DATA" raw then None
  else
    match kv_match raw with
    | Some (key, value) => Some (PyStr.upper key, PyStr.strip value)
    | None => None
    end.

(** The characters of an upper-cased key. *)
Definition is_key_char (c : ascii) : bool :=
  let n := nat_of_ascii c in
  ((48 <=? n) && (n <=? 57) || (65 <=? n) && (n <=? 90) || (n =? 95))%nat.

Fixpoint all_chars (p : ascii -> bool) (s : string) : bool :=
  match s with
  | EmptyString => true
  | String c r => p c && all_chars p r
  end.

(** A key of the header holds a value that is not blank. *)
Definition populated (meta : Meta) (key : string) : bool :=
  match dict_get meta key with
  | Some v => PyStr.truthy (PyStr.strip v)
  | None => false
  end.

(** The invariant of the loop of [_scan_keyvals]. *)
Definition header_ok (meta : Meta) : Prop :=
  NoDup (map fst meta)
  /\ forall k v, In (k, v) meta ->
       PyStr.is_empty k = false /\ all_chars is_key_char k = true
       /\ PyStr.strip v = v.

(** The value the lines give to a key: that of the last line that sets
    it, starting from [acc]. *)
Definition last_setting (K : string) (acc : option string) (raw : string)
    : option string :=
  match header_entry raw with
  | Some (k, v) => if String.eqb k K then Some v else acc
  | None => acc
  end.

Section DepthDoseVocabulary.

Variable float_of_str : string -> option float.

(** A line whose first token converts and whose second does not. *)
Definition half_sample (line : string) : bool :=
  match PyStr.split line with
  | p0 :: p1 :: _ =>
      match float_of_str p0, float_of_str p1 with
      | Some _, None => true
      | _, _ => false
      end
  | _ => false
  end.

End DepthDoseVocabulary.

(** The text of [FIELD_DEFINED] (or an alias), as [_jaws_from] reads it,
    and whether it names the isocentre. *)
Definition refdef_of (meta : Meta) : string :=
  PyStr.upper (PyStr.strip
    (or_empty (_pick meta ["FIELD_DEFINED"; "FIELD_REFERENCE"; "FIELD_AT"]))).

Definition names_iso (meta : Meta) : bool :=
  PyStr.contains "ISO" (refdef_of meta)
  || PyStr.contains "ISOCENTER" (refdef_of meta)
  || PyStr.contains "SAD" (refdef_of meta).

(** What [normalize] returns. *)
Definition normalized (values : list float) : list float :=
  match values with
  | [] => []
  | v :: rest =>
      let m := py_max_go v rest in
      if PrimFloat.eqb m 0%float then values
      else map (fun x => (x / m)%float) values
  end.

Section DedupVocabulary.

Variable round2 : float -> float.

(** The invariant of the second loop of [_parse_depth_csv_cm]: [seen]
    holds the keys of [out], in order, and no key of [out] equals a later
    one. *)
Definition dedup_ok (acc : list float * list float) : Prop :=
  fst acc = map round2 (snd acc)
  /\ forall i j a b, (i < j)%nat ->
       snd acc !! i = Some a -> snd acc !! j = Some b ->
       PrimFloat.eqb (round2 a) (round2 b) = false.

End DedupVocabulary.

(** A call of one of the two allocators, and a run of such calls. *)
Inductive StyleCall : Type :=
| ColorCall (param_name value : string)
| MarkerCall (param_name value : string).

Definition run_call (app : App) (c : StyleCall) : result App :=
  match c with
  | ColorCall p v => let! r := _get_color_for app p v in Ok (snd r)
  | MarkerCall p v => let! r := _get_marker_for app p v in Ok (snd r)
  end.

Fixpoint run_calls (app : App) (cs : list StyleCall) : result App :=
  match cs with
  | [] => Ok app
  | c :: rest => let! app1 := run_call app c in run_calls app1 rest
  end.



(** A profile block written without its [SCAN_DEPTH=] line. *)
Definition render_without_depth (cross : bool) (lines : list string) : list string :=
  [if cross then "SCAN_CURVETYPE=CROSSPLANE_PROFILE"
   else "SCAN_CURVETYPE=INPLANE_PROFILE";
   "BEGIN_DATA"]
  ++ lines ++ ["END_DATA"].


(* ===================================================================== *)
(** * Properties *)
(* ===================================================================== *)

(** ** Text helpers *)

Module PyStrFacts.
Import PyStr.

Lemma append_empty_r (s : string) : (s ++ "")%string = s.
Proof. induction s as [|c s IH]; simpl; [reflexivity | now rewrite IH]. Qed.

Lemma append_assoc (a b c : string) :
  ((a ++ b) ++ c)%string = (a ++ (b ++ c))%string.
Proof. induction a as [|x a IH]; simpl; [reflexivity | now rewrite IH]. Qed.

Lemma map_chars_app f (a b : string) :
  map_chars f (a ++ b) = (map_chars f a ++ map_chars f b)%string.
Proof. induction a as [|x a IH]; simpl; [reflexivity | now rewrite IH]. Qed.

Lemma upper_app (a b : string) : upper (a ++ b) = (upper a ++ upper b)%string.
Proof. apply map_chars_app. Qed.

Lemma startswith_app (sub a b : string) :
  startswith sub a = true -> startswith sub (a ++ b) = true.
Proof.
  revert a; induction sub as [|x sub IH]; intros a H; [reflexivity|].
  destruct a as [|y a]; simpl in *; [discriminate|].
  apply andb_true_iff in H as [H1 H2].
  rewrite H1; simpl. now apply IH.
Qed.

Lemma contains_app_l (sub a b : string) :
  contains sub a = true -> contains sub (a ++ b) = true.
Proof.
  induction a as [|y a IH]; intros H.
  - simpl in H. rewrite orb_false_r in H.
    destruct sub; [|discriminate]. destruct b; reflexivity.
  - cbn [contains] in H. apply orb_true_iff in H as [H|H].
    + change (String y a ++ b)%string with (String y (a ++ b)).
      cbn [contains]. apply orb_true_iff. left.
      now apply (startswith_app sub (String y a) b).
    + change (String y a ++ b)%string with (String y (a ++ b)).
      cbn [contains]. apply orb_true_iff. right. now apply IH.
Qed.

Lemma contains_app_r (sub a b : string) :
  contains sub b = true -> contains sub (a ++ b) = true.
Proof.
  intros H. induction a as [|y a IH]; [exact H|].
  change (String y a ++ b)%string with (String y (a ++ b)).
  cbn [contains]. apply orb_true_iff. now right.
Qed.

Lemma contains_middle (sub p x q : string) :
  contains sub x = true -> contains sub (p ++ x ++ q) = true.
Proof. intros H. apply contains_app_r. now apply contains_app_l. Qed.

Lemma join_In (sep x : string) (parts : list string) :
  In x parts -> exists p q, join sep parts = (p ++ x ++ q)%string.
Proof.
  induction parts as [|y parts IH]; intros H; [destruct H|].
  destruct H as [->|H].
  - destruct parts as [|z parts].
    + exists "", "". simpl. now rewrite append_empty_r.
    + exists "", (sep ++ join sep (z :: parts))%string. reflexivity.
  - destruct (IH H) as (p & q & E).
    destruct parts as [|z parts]; [destruct H|].
    exists (y ++ sep ++ p)%string, q.
    change (join sep (y :: z :: parts))
      with (y ++ sep ++ join sep (z :: parts))%string.
    rewrite E. now rewrite !append_assoc.
Qed.

(** No [old] is left after [replace(old, new)] with another character. *)
Lemma replace_char_clears (old new : ascii) (s : string) :
  old <> new ->
  contains (String old "") (replace_char old new s) = false.
Proof.
  intros Hne. induction s as [|c s IH]; [reflexivity|].
  unfold replace_char in *. cbn [map_chars contains startswith].
  rewrite IH, orb_false_r, andb_true_r.
  destruct (Ascii.eqb c old) eqn:E.
  - apply Ascii.eqb_neq. exact Hne.
  - apply Ascii.eqb_neq. apply Ascii.eqb_neq in E. congruence.
Qed.

Lemma lstrip_all_space (w s : string) :
  all_space w = true -> lstrip (w ++ s) = lstrip s.
Proof.
  induction w as [|c w IH]; intros H; [reflexivity|].
  simpl in H. apply andb_true_iff in H as [Hc Hw].
  simpl. rewrite Hc. now apply IH.
Qed.

Lemma rstrip_all_space (w : string) : all_space w = true -> rstrip w = "".
Proof.
  induction w as [|c w IH]; intros H; [reflexivity|].
  simpl in H. apply andb_true_iff in H as [Hc Hw].
  simpl. rewrite (IH Hw), Hc. reflexivity.
Qed.

Lemma rstrip_app_space (s w : string) :
  all_space w = true -> rstrip (s ++ w) = rstrip s.
Proof.
  intros Hw. induction s as [|c s IH]; simpl.
  - now apply rstrip_all_space.
  - now rewrite IH.
Qed.

Lemma rstrip_length (s : string) : String.length (rstrip s) <= String.length s.
Proof.
  induction s as [|c s IH]; simpl; [lia|].
  destruct (isspace c && is_empty (rstrip s)); simpl; lia.
Qed.

Lemma lstrip_length (s : string) : String.length (lstrip s) <= String.length s.
Proof.
  induction s as [|c s IH]; simpl; [lia|].
  destruct (isspace c); simpl; lia.
Qed.

(** A string that [strip] leaves alone does not start with a blank. *)
Lemma trimmed_lstrip (s : string) : strip s = s -> lstrip s = s.
Proof.
  destruct s as [|c s]; [reflexivity|].
  unfold strip. simpl. destruct (isspace c) eqn:Hc; [|reflexivity].
  intros H. exfalso.
  pose proof (rstrip_length (lstrip s)) as H1.
  pose proof (lstrip_length s) as H2.
  rewrite H in H1. simpl in H1. lia.
Qed.

(** [strip] removes exactly the blanks around a trimmed body. *)
Lemma strip_padded (w1 body w2 : string) :
  all_space w1 = true -> all_space w2 = true -> strip body = body ->
  strip (w1 ++ body ++ w2) = body.
Proof.
  intros H1 H2 Hb. unfold strip.
  rewrite lstrip_all_space by exact H1.
  pose proof (trimmed_lstrip body Hb) as Hl.
  destruct body as [|c body].
  - simpl. rewrite <- (append_empty_r w2) at 1.
    rewrite lstrip_all_space by exact H2. reflexivity.
  - assert (Hc : isspace c = false).
    { simpl in Hl. destruct (isspace c) eqn:E; [|reflexivity].
      exfalso. pose proof (lstrip_length body) as HL.
      rewrite Hl in HL. simpl in HL. lia. }
    change (String c body ++ w2)%string with (String c (body ++ w2)).
    cbn [lstrip]. rewrite Hc.
    change (String c (body ++ w2)) with (String c body ++ w2)%string.
    rewrite rstrip_app_space by exact H2.
    unfold strip in Hb. rewrite Hl in Hb. exact Hb.
Qed.

Lemma map_chars_get f (s : string) (i : nat) :
  String.get i (map_chars f s) = option_map f (String.get i s).
Proof.
  revert i; induction s as [|c s IH]; intros i; [reflexivity|].
  destruct i as [|i]; simpl; [reflexivity | apply IH].
Qed.

(** Upper-casing keeps an occurrence of a text that has no lower-case
    letter: here the marker itself. *)
Lemma startswith_upper (sub s : string) :
  upper sub = sub -> startswith sub s = true -> startswith sub (upper s) = true.
Proof.
  revert s; induction sub as [|a sub IH]; intros s Hu H; [reflexivity|].
  destruct s as [|b s]; [discriminate|].
  simpl in *. injection Hu as Ha Hsub.
  apply andb_true_iff in H as [Hab Hr]. apply Ascii.eqb_eq in Hab. subst b.
  rewrite Ha, Ascii.eqb_refl. simpl. now apply IH.
Qed.

Lemma contains_upper (sub s : string) :
  upper sub = sub -> contains sub s = true -> contains sub (upper s) = true.
Proof.
  intros Hu. induction s as [|c s IH]; intros H.
  - simpl in *. rewrite orb_false_r in *. exact H.
  - cbn [contains] in H. apply orb_true_iff in H as [H|H].
    + change (upper (String c s)) with (String (upper_char c) (upper s)).
      cbn [contains]. apply orb_true_iff. left.
      now apply (startswith_upper sub (String c s)).
    + change (upper (String c s)) with (String (upper_char c) (upper s)).
      cbn [contains]. apply orb_true_iff. right. now apply IH.
Qed.

Lemma truthy_strip (s : string) : truthy (strip s) = true -> truthy s = true.
Proof. destruct s; [discriminate | reflexivity]. Qed.

End PyStrFacts.

(** ** Numeric text and jaw rescaling *)

Lemma truediv_nonzero (a b : float) :
  PrimFloat.eqb b 0%float = false -> PyFloat.truediv a b = Ok (a / b)%float.
Proof. intros H. unfold PyFloat.truediv. now rewrite H. Qed.

Section NumericText.

Variable float_of_str : string -> option float.

(** C10. [_as_float] returns [None] for [None]; for a string it hands to
    the converter the text with the surrounding blanks removed and every
    comma turned into a point (no comma reaches the converter, and every
    other character is kept in place), so that ["1,5"] is read as ["1.5"];
    a text the converter rejects gives [None], not an exception. *)
Theorem as_float_decimal_comma :
  _as_float float_of_str None = None
  /\ (forall w1 body w2 : string,
        all_space w1 = true -> all_space w2 = true ->
        PyStr.strip body = body ->
        _as_float float_of_str (Some (w1 ++ body ++ w2)%string)
        = float_of_str (PyStr.replace_char "," "." body))
  /\ (forall s : string, exists t : string,
        _as_float float_of_str (Some s) = float_of_str t
        /\ PyStr.contains "," t = false
        /\ forall i, String.get i t
                     = option_map (fun c => if Ascii.eqb c "," then "."%char else c)
                         (String.get i (PyStr.strip s)))
  /\ (forall s : string,
        float_of_str (PyStr.replace_char "," "." (PyStr.strip s)) = None ->
        _as_float float_of_str (Some s) = None)
  /\ _as_float float_of_str (Some "1,5") = float_of_str "1.5"
  /\ (float_of_str "1.5" = Some 1.5%float ->
      _as_float float_of_str (Some " 1,5 ") = Some 1.5%float).
Proof.
  split; [reflexivity|].
  split.
  { intros w1 body w2 H1 H2 Hb. unfold _as_float.
    now rewrite PyStrFacts.strip_padded. }
  split.
  { intros s. exists (PyStr.replace_char "," "." (PyStr.strip s)).
    split; [reflexivity|]. split.
    - apply PyStrFacts.replace_char_clears. discriminate.
    - intros i. apply PyStrFacts.map_chars_get. }
  split; [intros s H; exact H|].
  split; [reflexivity|].
  intros H. exact H.
Qed.

End NumericText.

(** The decimal reader on the comma form. *)
Lemma as_float_decimal_comma_run :
  _as_float PyFloat.decimal (Some " 1,5 ") = Some 1.5%float.
Proof.
  apply (as_float_decimal_comma PyFloat.decimal). vm_compute. reflexivity.
Defined.

Lemma scale_jaw_ok (jaw_raw_cm d_ref_cm : option float) :
  _scale_jaw_to_100 jaw_raw_cm d_ref_cm = Ok (scaled_jaw jaw_raw_cm d_ref_cm).
Proof.
  destruct jaw_raw_cm as [jaw|], d_ref_cm as [d|]; simpl; try reflexivity.
  destruct (PrimFloat.eqb d 0%float) eqn:E; [reflexivity|].
  unfold DEFAULT_SAD_CM. now rewrite truediv_nonzero by exact E.
Qed.

(** C9. [_scale_jaw_to_100] never raises; with no reference distance, or
    one equal to zero, it returns the raw dimension as it is, and otherwise
    the raw dimension times [100 / d_ref]. *)
Theorem scale_jaw_total_and_guarded (jaw_raw_cm d_ref_cm : option float) :
  exists r : option float,
    _scale_jaw_to_100 jaw_raw_cm d_ref_cm = Ok r
    /\ (d_ref_cm = None -> r = jaw_raw_cm)
    /\ (forall d, d_ref_cm = Some d -> PrimFloat.eqb d 0%float = true ->
        r = jaw_raw_cm)
    /\ (forall jaw d, jaw_raw_cm = Some jaw -> d_ref_cm = Some d ->
        PrimFloat.eqb d 0%float = false ->
        PyFloat.truediv 100%float d = Ok (100 / d)%float
        /\ r = Some (jaw * (100 / d))%float)
    /\ (jaw_raw_cm = None -> r = None).
Proof.
  exists (scaled_jaw jaw_raw_cm d_ref_cm).
  split; [apply scale_jaw_ok|]. unfold scaled_jaw.
  split; [intros ->; now destruct jaw_raw_cm|].
  split; [intros d -> E; rewrite E; now destruct jaw_raw_cm|].
  split; [|intros ->; reflexivity].
  intros jaw d -> -> E. rewrite E.
  split; [now apply truediv_nonzero | reflexivity].
Qed.

(** Zero (of either sign) and a missing distance leave 10 cm as it is; a
    plane at 50 cm doubles it. *)
Lemma scale_jaw_total_and_guarded_run :
  _scale_jaw_to_100 (Some 10%float) (Some 0%float) = Ok (Some 10%float)
  /\ _scale_jaw_to_100 (Some 10%float) (Some (-0)%float) = Ok (Some 10%float)
  /\ _scale_jaw_to_100 (Some 10%float) None = Ok (Some 10%float)
  /\ _scale_jaw_to_100 (Some 10%float) (Some 50%float) = Ok (Some 20%float).
Proof.
  destruct (scale_jaw_total_and_guarded (Some 10%float) (Some 0%float))
    as (r & E & _ & H & _).
  split; [rewrite E; f_equal; apply (H 0%float); reflexivity|].
  repeat split; vm_compute; reflexivity.
Defined.

(** ** Field of view at a depth *)

Section FieldOfView.

Variable float_of_str : string -> option float.

Lemma jaw100_at_total (meta : Meta) (depth_cm : float) :
  exists jx jy, jaw100_at float_of_str meta depth_cm = Ok (jx, jy).
Proof.
  unfold jaw100_at.
  destruct (_jaws_from float_of_str meta (Some (depth_cm * 10)%float))
    as [[jawx jawy] d_ref]; simpl.
  rewrite !scale_jaw_ok; simpl. eauto.
Qed.

(** C4. [_fov_at_depth_pair] never raises; it is absent when the SSD or
    one of the two jaw dimensions at the 100 cm plane is, and otherwise
    each axis is [jaw100 * (SSD + D) / 100]. With SSD 90, jaws (10, 10)
    and D = 10 the pair is (10, 10). *)
Theorem fov_at_depth_scaling (meta : Meta) (D : float) :
  exists jx100 jy100 : option float,
    jaw100_at float_of_str meta D = Ok (jx100, jy100)
    /\ _fov_at_depth_pair float_of_str meta D
       = Ok (match _ssd_cm_from_mm float_of_str meta, jx100, jy100 with
             | Some ssd, Some jx, Some jy =>
                 Some ((jx * (ssd + D) / 100)%float, (jy * (ssd + D) / 100)%float)
             | _, _, _ => None
             end)
    /\ (_ssd_cm_from_mm float_of_str meta = None \/ jx100 = None \/ jy100 = None ->
        _fov_at_depth_pair float_of_str meta D = Ok None)
    /\ (_ssd_cm_from_mm float_of_str meta = Some 90%float ->
        jx100 = Some 10%float -> jy100 = Some 10%float -> D = 10%float ->
        _fov_at_depth_pair float_of_str meta D = Ok (Some (10%float, 10%float))).
Proof.
  destruct (jaw100_at_total meta D) as (jx & jy & E).
  exists jx, jy. split; [exact E|].
  assert (F : _fov_at_depth_pair float_of_str meta D
       = Ok (match _ssd_cm_from_mm float_of_str meta, jx, jy with
             | Some ssd, Some jx, Some jy =>
                 Some ((jx * (ssd + D) / 100)%float, (jy * (ssd + D) / 100)%float)
             | _, _, _ => None
             end)).
  { unfold _fov_at_depth_pair, jaw100_at in *.
    destruct (_ssd_cm_from_mm float_of_str meta) as [ssd|]; [|reflexivity].
    destruct (_jaws_from float_of_str meta (Some (D * 10)%float))
      as [[jawx jawy] d_ref]; simpl in *.
    destruct (_scale_jaw_to_100 jawx d_ref) as [ax|]; simpl in *; [|discriminate].
    destruct (_scale_jaw_to_100 jawy d_ref) as [ay|]; simpl in *; [|discriminate].
    injection E as -> ->.
    destruct jx, jy; reflexivity. }
  split; [exact F|]. split.
  - intros [H|[H|H]]; rewrite F, ?H.
    + reflexivity.
    + now destruct (_ssd_cm_from_mm float_of_str meta).
    + now destruct (_ssd_cm_from_mm float_of_str meta), jx.
  - intros Hs -> -> ->. rewrite F, Hs. vm_compute. reflexivity.
Qed.

End FieldOfView.

Lemma fov_at_depth_scaling_run :
  _fov_at_depth_pair PyFloat.decimal meta_iso_10x10 10%float
  = Ok (Some (10%float, 10%float)).
Proof.
  destruct (fov_at_depth_scaling PyFloat.decimal meta_iso_10x10 10%float)
    as (jx & jy & E & _ & _ & H).
  vm_compute in E. injection E as <- <-.
  apply H; reflexivity.
Defined.

(** The formula away from the 100 cm plane: SSD 80, depth 10, jaws 20. *)
Example fov_ssd80_depth10 :
  _fov_at_depth_pair PyFloat.decimal
    [("SSD", "800"); ("JAW_X", "20"); ("JAW_Y", "20"); ("FIELD_DEFINED", "ISO")]
    10%float
  = Ok (Some (18%float, 18%float)).
Proof. vm_compute. reflexivity. Qed.

(** ** Depth selection *)

Lemma match_depths_acc (seq : list Curve) (t : float)
    (acc : list (list float * list float)) :
  fold_left
    (fun out e =>
       match depth_mm e with
       | None => out
       | Some dmm => if depth_close dmm t then out ++ [(xs e, ys e)] else out
       end) seq acc
  = acc ++ map pair_of (List.filter (within_tolerance t) seq).
Proof.
  revert acc; induction seq as [|e seq IH]; intros acc; simpl.
  - now rewrite app_nil_r.
  - rewrite IH. unfold within_tolerance at 2.
    destruct (depth_mm e) as [dmm|]; [|reflexivity].
    destruct (depth_close dmm t); [|reflexivity].
    simpl. now rewrite <- app_assoc.
Qed.

Lemma match_depths_filter (seq : list Curve) (t : float) :
  match_depths seq t = map pair_of (List.filter (within_tolerance t) seq).
Proof. unfold match_depths. now rewrite match_depths_acc. Qed.

(** C5. The series drawn for a target depth are, in order, the curves of
    each requested orientation that carry a depth [d] with
    [|d / 10 - t| <= 0.05]; a curve of the row is drawn exactly when its
    orientation is requested and its depth passes that test. A target of
    10.0 keeps a curve tagged 100.03 and drops one tagged 100.6. *)
Theorem depth_selection_tolerance (profiles : gmap string (list Curve))
    (want_in want_cross : bool) (t : float) :
  series_for_depth profiles want_in want_cross t
  = map (fun c => ("inplane", pair_of c))
      (List.filter (within_tolerance t)
         (if want_in then profile_list profiles "inplane" else []))
    ++ map (fun c => ("crossplane", pair_of c))
      (List.filter (within_tolerance t)
         (if want_cross then profile_list profiles "crossplane" else []))
  /\ (forall (o : string) (p : list float * list float),
        In (o, p) (series_for_depth profiles want_in want_cross t)
        <-> requested want_in want_cross o = true
            /\ exists e dmm, In e (profile_list profiles o)
                 /\ depth_mm e = Some dmm
                 /\ (abs (dmm / 10 - t) <=? 0.05)%float = true
                 /\ p = (xs e, ys e))
  /\ depth_close 100.03%float 10%float = true
  /\ depth_close 100.6%float 10%float = false.
Proof.
  assert (E : series_for_depth profiles want_in want_cross t
    = map (fun c => ("inplane", pair_of c))
        (List.filter (within_tolerance t)
           (if want_in then profile_list profiles "inplane" else []))
      ++ map (fun c => ("crossplane", pair_of c))
        (List.filter (within_tolerance t)
           (if want_cross then profile_list profiles "crossplane" else []))).
  { unfold series_for_depth. rewrite !match_depths_filter. f_equal.
    - destruct want_in; [|reflexivity].
      destruct (profile_list profiles "inplane"); simpl; [reflexivity|].
      now rewrite map_map.
    - destruct want_cross; [|reflexivity].
      destruct (profile_list profiles "crossplane"); simpl; [reflexivity|].
      now rewrite map_map. }
  split; [exact E|]. split; [|split; vm_compute; reflexivity].
  intros o p. rewrite E. rewrite in_app_iff, !in_map_iff. split.
  - intros [(e & He & Hin)|(e & He & Hin)];
      apply filter_In in Hin as [Hin Hw]; injection He as <- <-;
      unfold within_tolerance in Hw;
      destruct (depth_mm e) as [dmm|] eqn:Hd; try discriminate.
    + destruct want_in; [|destruct Hin].
      split; [reflexivity|]. exists e, dmm. repeat split; assumption.
    + destruct want_cross; [|destruct Hin].
      split; [unfold requested; now destruct want_in|].
      exists e, dmm. repeat split; assumption.
  - intros (Hr & e & dmm & Hin & Hd & Hc & ->).
    assert (Hw : within_tolerance t e = true).
    { unfold within_tolerance. rewrite Hd. exact Hc. }
    unfold requested in Hr. apply orb_true_iff in Hr as [Hr|Hr];
      apply andb_true_iff in Hr as [Ho Hwant]; apply String.eqb_eq in Ho;
      subst o; rewrite Hwant.
    + left. exists e. split; [reflexivity|]. apply filter_In. now split.
    + right. exists e. split; [reflexivity|]. apply filter_In. now split.
Qed.

(** ** Energy and the FFF suffix *)

Lemma pick_truthy (meta : Meta) (keys : list string) (v : string) :
  _pick meta keys = Some v -> PyStr.truthy (PyStr.strip v) = true.
Proof.
  induction keys as [|key keys IH]; simpl; [discriminate|].
  destruct (dict_get meta key) as [w|]; [|exact IH].
  destruct (PyStr.truthy (PyStr.strip w)) eqn:E; [|exact IH].
  intros [= <-]. exact E.
Qed.

Lemma up_all_contains (sub : string) (meta : Meta) (k v : string) :
  In (k, v) meta ->
  PyStr.contains sub (PyStr.upper (k ++ "=" ++ v)) = true ->
  PyStr.contains sub (up_all_of meta) = true.
Proof.
  intros Hin Hc. unfold up_all_of.
  destruct (PyStrFacts.join_In " " (k ++ "=" ++ v)%string
              (map (fun kv => (fst kv ++ "=" ++ snd kv)%string) meta))
    as (p & q & E).
  { apply in_map_iff. exists (k, v). now split. }
  rewrite E, (PyStrFacts.upper_app p), (PyStrFacts.upper_app _ q).
  now apply PyStrFacts.contains_middle.
Qed.

(** C3. With a populated energy key whose text, trimmed as [_energy_from]
    trims it, is [e]: when [e] has no FFF (whatever the case) and some
    [key=value] of the header has one, the result is [e] followed by
    [" FFF"]; when [e] already has FFF the result is [e], with no second
    suffix. For a header value stored trimmed, [e] is the text itself. *)
Theorem energy_fff_suffix (meta : Meta) (energy : string) :
  _pick meta ENERGY_KEYS = Some energy ->
  (PyStr.contains "FFF" (PyStr.upper (PyStr.strip energy)) = false ->
   (exists k v, In (k, v) meta
      /\ PyStr.contains "FFF" (PyStr.upper (k ++ "=" ++ v)) = true) ->
   _energy_from meta = Some (PyStr.strip energy ++ " FFF")%string)
  /\ (PyStr.contains "FFF" (PyStr.upper (PyStr.strip energy)) = true ->
      _energy_from meta = Some (PyStr.strip energy))
  /\ (PyStr.strip energy = energy ->
      (PyStr.contains "FFF" (PyStr.upper energy) = false ->
       (exists k v, In (k, v) meta /\ PyStr.contains "FFF" (k ++ "=" ++ v) = true) ->
       _energy_from meta = Some (energy ++ " FFF")%string)
      /\ (PyStr.contains "FFF" (PyStr.upper energy) = true ->
          _energy_from meta = Some energy)).
Proof.
  intros Hp.
  assert (Ht : PyStr.truthy energy = true).
  { apply PyStrFacts.truthy_strip. eapply pick_truthy. exact Hp. }
  assert (A : PyStr.contains "FFF" (PyStr.upper (PyStr.strip energy)) = false ->
    (exists k v, In (k, v) meta
       /\ PyStr.contains "FFF" (PyStr.upper (k ++ "=" ++ v)) = true) ->
    _energy_from meta = Some (PyStr.strip energy ++ " FFF")%string).
  { intros He (k & v & Hin & Hc).
    unfold _energy_from. rewrite Hp, Ht. cbn [negb].
    rewrite He, (up_all_contains "FFF" meta k v Hin Hc). reflexivity. }
  assert (B : PyStr.contains "FFF" (PyStr.upper (PyStr.strip energy)) = true ->
    _energy_from meta = Some (PyStr.strip energy)).
  { intros He. unfold _energy_from. rewrite Hp, Ht. cbn [negb].
    rewrite He. reflexivity. }
  split; [exact A|]. split; [exact B|].
  intros Hs. rewrite Hs in A, B. split; [|exact B].
  intros He (k & v & Hin & Hc). apply A; [exact He|].
  exists k, v. split; [exact Hin|]. now apply PyStrFacts.contains_upper.
Qed.

Lemma energy_fff_suffix_run :
  _energy_from [("ENERGY", "6"); ("LINAC", "TrueBeam FFF")] = Some "6 FFF"
  /\ _energy_from [("ENERGY", "6 fff"); ("LINAC", "TrueBeam FFF")] = Some "6 fff".
Proof.
  split.
  - destruct (energy_fff_suffix [("ENERGY", "6"); ("LINAC", "TrueBeam FFF")] "6" eq_refl)
      as (A & _ & _).
    apply A; [reflexivity|].
    exists "LINAC", "TrueBeam FFF". split; [right; left; reflexivity | reflexivity].
  - destruct (energy_fff_suffix [("ENERGY", "6 fff"); ("LINAC", "TrueBeam FFF")] "6 fff" eq_refl)
      as (_ & B & _).
    apply B. reflexivity.
Defined.

(** ** Style allocation *)

Lemma first_unused_Some (used : gset string) (pool : list string) (v : string) :
  first_unused used pool = Some v -> v ∈ pool /\ v ∉ used.
Proof.
  induction pool as [|x pool IH]; simpl; [discriminate|].
  destruct (decide (x ∈ used)) as [Hx|Hx].
  - intros H. destruct (IH H) as [H1 H2]. split; [now right | exact H2].
  - intros [= <-]. split; [now left | exact Hx].
Qed.

Lemma first_unused_None (used : gset string) (pool : list string) :
  first_unused used pool = None <-> (forall v, v ∈ pool -> v ∈ used).
Proof.
  induction pool as [|x pool IH]; simpl.
  - split; [intros _ v Hv; inversion Hv | reflexivity].
  - destruct (decide (x ∈ used)) as [Hx|Hx].
    + rewrite IH. split.
      * intros H v Hv. apply elem_of_cons in Hv as [->|Hv]; auto.
      * intros H v Hv. apply H. now right.
    + split; [discriminate|]. intros H. exfalso. apply Hx, H. now left.
Qed.

(** With a pool that is not empty, [_next_from_pool] returns one of its
    symbols. *)
Lemma next_from_pool_in_pool (used : gset string) (pool : list string) :
  pool <> [] -> exists sym, _next_from_pool used pool = Ok sym /\ sym ∈ pool.
Proof.
  intros Hne. unfold _next_from_pool.
  destruct (first_unused used pool) as [v|] eqn:E.
  - exists v. split; [reflexivity|]. now apply first_unused_Some in E.
  - assert (Hlt : (size used `mod` Nat.max 1 (length pool) < length pool)%nat).
    { destruct pool as [|x pool]; [congruence|]. simpl length.
      replace (Nat.max 1 (S (length pool))) with (S (length pool)) by lia.
      apply Nat.mod_upper_bound. lia. }
    destruct (lookup_lt_is_Some_2 pool _ Hlt) as [v Hv].
    rewrite Hv. exists v. split; [reflexivity|].
    eapply list_elem_of_lookup_2. exact Hv.
Qed.

(** Once every symbol of the pool is in use, and nothing else is, the
    symbol handed out is the first of the pool, however many values the
    namespace already holds. *)
Lemma forced_reuse_is_first (used : gset string) (pool : list string)
    (first : string) :
  NoDup pool -> pool !! 0%nat = Some first ->
  (forall v, v ∈ used <-> v ∈ pool) ->
  _next_from_pool used pool = Ok first.
Proof.
  intros Hnd Hfirst Huse. unfold _next_from_pool.
  assert (E : first_unused used pool = None).
  { apply first_unused_None. intros v Hv. now apply Huse. }
  rewrite E.
  assert (Hu : used = list_to_set pool).
  { apply set_eq. intros v. rewrite elem_of_list_to_set. apply Huse. }
  rewrite Hu, size_list_to_set by exact Hnd.
  destruct pool as [|x pool]; [discriminate|]. simpl length.
  replace (Nat.max 1 (S (length pool))) with (S (length pool)) by lia.
  rewrite Nat.Div0.mod_same. now rewrite Hfirst.
Qed.

Section Allocator.

Variable pool : list string.
Variable get_maps : Global -> option (gmap string (gmap string string)).
Variable set_maps : gmap string (gmap string string) -> Global -> Global.

Hypothesis get_set : forall m g, get_maps (set_maps m g) = Some m.
Hypothesis set_get : forall m g, get_maps g = Some m -> set_maps m g = g.
Hypothesis pool_nonempty : pool <> [].

Lemma setdefault_lookup (key : string) (m : gmap string (gmap string string)) :
  setdefault_empty key m !! key = Some (default ∅ (m !! key)).
Proof.
  unfold setdefault_empty. destruct (m !! key) as [pm|] eqn:E; simpl.
  - exact E.
  - apply lookup_insert_eq.
Qed.

Lemma setdefault_insert (key : string) (pm : gmap string string)
    (m : gmap string (gmap string string)) :
  <[key := pm]> (setdefault_empty key m) = <[key := pm]> m.
Proof.
  unfold setdefault_empty. destruct (m !! key); [reflexivity|].
  apply insert_insert_eq.
Qed.

Lemma allocate_found (app : App) (key value sym : string) :
  ns_map get_maps app key !! _normalize_key value = Some sym ->
  allocate pool get_maps set_maps app key value = Ok (sym, app).
Proof.
  unfold ns_map, allocate. intros H.
  rewrite setdefault_lookup, H.
  destruct app as [g sv]; simpl in *.
  destruct (get_maps g) as [m|] eqn:Eg; simpl in *.
  - destruct (m !! key) as [pm|] eqn:Ek; simpl in H.
    + unfold setdefault_empty. rewrite Ek. now rewrite (set_get m g Eg).
    + rewrite lookup_empty in H. discriminate.
  - rewrite lookup_empty in H. simpl in H. rewrite lookup_empty in H. discriminate.
Qed.

Lemma allocate_fresh (app : App) (key value : string) :
  ns_map get_maps app key !! _normalize_key value = None ->
  exists sym,
    _next_from_pool (used_symbols (ns_map get_maps app key)) pool = Ok sym
    /\ sym ∈ pool
    /\ allocate pool get_maps set_maps app key value = Ok (sym, assigned get_maps set_maps app key (_normalize_key value) sym).
Proof.
  unfold ns_map, allocate, assigned. intros H.
  rewrite setdefault_lookup, H.
  destruct (next_from_pool_in_pool
              (used_symbols (default ∅ (default ∅ (get_maps (prefs app)) !! key)))
              pool pool_nonempty) as (sym & Es & Hin).
  exists sym. split; [exact Es|]. split; [exact Hin|].
  rewrite Es. simpl. rewrite lookup_insert_eq, setdefault_insert. reflexivity.
Qed.

Lemma ns_map_assigned_same (app : App) (key norm sym : string) :
  ns_map get_maps (assigned get_maps set_maps app key norm sym) key = <[norm := sym]> (ns_map get_maps app key).
Proof.
  unfold ns_map at 1, assigned. simpl. rewrite get_set. simpl.
  now rewrite lookup_insert_eq.
Qed.

Lemma ns_map_assigned_other (app : App) (key norm sym ns : string) :
  key <> ns -> ns_map get_maps (assigned get_maps set_maps app key norm sym) ns = ns_map get_maps app ns.
Proof.
  intros Hne. unfold ns_map at 1, assigned. simpl. rewrite get_set. simpl.
  now rewrite lookup_insert_ne.
Qed.

(** Every call returns a symbol and a state. *)
Lemma allocate_total (app : App) (key value : string) :
  exists sym app', allocate pool get_maps set_maps app key value = Ok (sym, app').
Proof.
  destruct (ns_map get_maps app key !! _normalize_key value) as [sym|] eqn:E.
  - exists sym, app. now apply allocate_found.
  - destruct (allocate_fresh app key value E) as (sym & _ & _ & Ha). eauto.
Qed.

(** A second call with the same normalized value repeats the symbol and
    changes nothing. *)
Lemma allocate_again (app app1 : App) (key v v' sym : string) :
  _normalize_key v = _normalize_key v' ->
  allocate pool get_maps set_maps app key v = Ok (sym, app1) ->
  allocate pool get_maps set_maps app1 key v' = Ok (sym, app1).
Proof.
  intros Hn Ha.
  destruct (ns_map get_maps app key !! _normalize_key v) as [s0|] eqn:E.
  - rewrite (allocate_found app key v s0 E) in Ha. injection Ha as <- <-.
    apply allocate_found. now rewrite <- Hn.
  - destruct (allocate_fresh app key v E) as (s0 & _ & _ & Ha').
    rewrite Ha' in Ha. injection Ha as <- <-.
    apply allocate_found. rewrite ns_map_assigned_same, <- Hn.
    apply lookup_insert_eq.
Qed.

(** A call under [key] leaves the map of any other namespace as it was. *)
Lemma allocate_other (app app1 : App) (key v sym ns : string) :
  key <> ns ->
  allocate pool get_maps set_maps app key v = Ok (sym, app1) ->
  ns_map get_maps app1 ns = ns_map get_maps app ns.
Proof.
  intros Hne Ha.
  destruct (ns_map get_maps app key !! _normalize_key v) as [s0|] eqn:E.
  - rewrite (allocate_found app key v s0 E) in Ha. now injection Ha as <- <-.
  - destruct (allocate_fresh app key v E) as (s0 & _ & _ & Ha').
    rewrite Ha' in Ha. injection Ha as <- <-.
    now apply ns_map_assigned_other.
Qed.

End Allocator.

Lemma color_get_set m g : color_maps (set_color_maps m g) = Some m.
Proof. reflexivity. Qed.

Lemma color_set_get m g : color_maps g = Some m -> set_color_maps m g = g.
Proof. destruct g; simpl; intros ->; reflexivity. Qed.

Lemma marker_get_set m g : marker_maps (set_marker_maps m g) = Some m.
Proof. reflexivity. Qed.

Lemma marker_set_get m g : marker_maps g = Some m -> set_marker_maps m g = g.
Proof. destruct g; simpl; intros ->; reflexivity. Qed.

Lemma okabe_ito_nonempty : OKABE_ITO <> [].
Proof. discriminate. Qed.

Lemma marker_pool_nonempty : MARKER_POOL <> [].
Proof. discriminate. Qed.

Lemma get_color_allocate (app : App) (param_name value : string) :
  _get_color_for app param_name value
  = allocate OKABE_ITO color_maps set_color_maps app (color_ns param_name) value.
Proof. reflexivity. Qed.

Lemma get_marker_allocate (app : App) (param_name value : string) :
  _get_marker_for app param_name value
  = if negb (PyStr.truthy param_name) then Ok ("o", app)
    else allocate MARKER_POOL marker_maps set_marker_maps app param_name value.
Proof. reflexivity. Qed.

(** A colour allocation does not touch the marker maps, nor a marker
    allocation the colour maps. *)
Lemma get_color_keeps_markers (app app1 : App) (p v sym : string) :
  _get_color_for app p v = Ok (sym, app1) ->
  marker_maps (prefs app1) = marker_maps (prefs app).
Proof.
  rewrite get_color_allocate. intros Ha.
  destruct (ns_map color_maps app (color_ns p) !! _normalize_key v) as [s0|] eqn:E.
  - rewrite (allocate_found _ _ _ color_set_get _ _ _ _ E) in Ha.
    now injection Ha as <- <-.
  - destruct (allocate_fresh OKABE_ITO color_maps set_color_maps
                okabe_ito_nonempty app (color_ns p) v E) as (s0 & _ & _ & Ha').
    rewrite Ha' in Ha. now injection Ha as <- <-.
Qed.

Lemma get_marker_keeps_colors (app app1 : App) (p v sym : string) :
  _get_marker_for app p v = Ok (sym, app1) ->
  color_maps (prefs app1) = color_maps (prefs app).
Proof.
  rewrite get_marker_allocate. destruct (negb (PyStr.truthy p)).
  - now intros [= <- <-].
  - intros Ha.
    destruct (ns_map marker_maps app p !! _normalize_key v) as [s0|] eqn:E.
    + rewrite (allocate_found _ _ _ marker_set_get _ _ _ _ E) in Ha.
      now injection Ha as <- <-.
    + destruct (allocate_fresh MARKER_POOL marker_maps set_marker_maps
                  marker_pool_nonempty app p v E) as (s0 & _ & _ & Ha').
      rewrite Ha' in Ha. now injection Ha as <- <-.
Qed.

Lemma get_color_total (app : App) (p v : string) :
  exists sym app1, _get_color_for app p v = Ok (sym, app1).
Proof.
  rewrite get_color_allocate.
  apply allocate_total; [apply color_set_get | apply okabe_ito_nonempty].
Qed.

Lemma get_marker_total (app : App) (p v : string) :
  exists sym app1, _get_marker_for app p v = Ok (sym, app1).
Proof.
  rewrite get_marker_allocate. destruct (negb (PyStr.truthy p)); [eauto|].
  apply allocate_total; [apply marker_set_get | apply marker_pool_nonempty].
Qed.

(** C8. Both allocators return a symbol, and a second call with the same
    namespace and a value of the same normalized form returns that symbol
    again and leaves the whole state, the namespace's map included, as the
    first call left it (nothing is saved again). *)
Theorem style_allocation_idempotent (app : App) (ns v v' : string) :
  _normalize_key v = _normalize_key v' ->
  (exists sym app1,
      _get_color_for app ns v = Ok (sym, app1)
      /\ _get_color_for app1 ns v' = Ok (sym, app1)
      /\ color_map_of app1 (color_ns ns) !! _normalize_key v = Some sym)
  /\ (exists sym app1,
        _get_marker_for app ns v = Ok (sym, app1)
        /\ _get_marker_for app1 ns v' = Ok (sym, app1)).
Proof.
  intros Hn. split.
  - destruct (get_color_total app ns v) as (sym & app1 & Ha).
    exists sym, app1. split; [exact Ha|].
    rewrite get_color_allocate in Ha.
    pose proof (allocate_again OKABE_ITO color_maps set_color_maps
                  color_get_set color_set_get okabe_ito_nonempty
                  app app1 (color_ns ns) v v' sym Hn Ha) as H2.
    split; [rewrite get_color_allocate; exact H2|].
    pose proof (allocate_again OKABE_ITO color_maps set_color_maps
                  color_get_set color_set_get okabe_ito_nonempty
                  app app1 (color_ns ns) v v sym eq_refl Ha) as H1.
    change (color_map_of app1 (color_ns ns))
      with (ns_map color_maps app1 (color_ns ns)).
    destruct (ns_map color_maps app1 (color_ns ns) !! _normalize_key v) as [s0|] eqn:E.
    + rewrite (allocate_found _ _ _ color_set_get _ _ _ _ E) in H1. congruence.
    + destruct (allocate_fresh OKABE_ITO color_maps set_color_maps
                  okabe_ito_nonempty app1 (color_ns ns) v E) as (s0 & _ & _ & Hf).
      rewrite Hf in H1. injection H1 as _ H1.
      exfalso. apply (f_equal saved) in H1. simpl in H1.
      apply (f_equal (@length Global)) in H1. simpl in H1. lia.
  - destruct (get_marker_total app ns v) as (sym & app1 & Ha).
    exists sym, app1. split; [exact Ha|].
    rewrite get_marker_allocate in *.
    destruct (negb (PyStr.truthy ns)).
    + now injection Ha as <- <-.
    + exact (allocate_again MARKER_POOL marker_maps set_marker_maps
               marker_get_set marker_set_get marker_pool_nonempty
               app app1 ns v v' sym Hn Ha).
Qed.

Lemma style_allocation_idempotent_run :
  (exists sym app1,
      _get_color_for default_app "energy" "6 MV" = Ok (sym, app1)
      /\ _get_color_for app1 "energy" "  6 mv " = Ok (sym, app1)
      /\ color_map_of app1 (color_ns "energy") !! _normalize_key "6 MV" = Some sym)
  /\ (exists sym app1,
        _get_marker_for default_app "energy" "6 MV" = Ok (sym, app1)
        /\ _get_marker_for app1 "energy" "  6 mv " = Ok (sym, app1)).
Proof.
  apply (style_allocation_idempotent default_app "energy" "6 MV" "  6 mv ").
  vm_compute. reflexivity.
Defined.

Lemma color_map_of_markers_only (app app1 : App) (ns : string) :
  color_maps (prefs app1) = color_maps (prefs app) ->
  color_map_of app1 ns = color_map_of app ns.
Proof. unfold color_map_of. now intros ->. Qed.

Lemma marker_map_of_colors_only (app app1 : App) (ns : string) :
  marker_maps (prefs app1) = marker_maps (prefs app) ->
  marker_map_of app1 ns = marker_map_of app ns.
Proof. unfold marker_map_of. now intros ->. Qed.

(** C7. An allocation filed under one namespace key returns a symbol and
    leaves the map of every other namespace key exactly as it was, for
    colours and for markers alike (and neither kind touches the maps of the
    other); and one value can hold different symbols in two namespaces:
    after "10" in "energy", the value "6" gets the second colour in
    "energy" and the first one in "fov@depth". *)
Theorem style_namespaces_isolated :
  (forall (app : App) (p1 v p2 : string),
      color_ns p1 <> color_ns p2 ->
      exists sym app1,
        _get_color_for app p1 v = Ok (sym, app1)
        /\ color_map_of app1 (color_ns p2) = color_map_of app (color_ns p2)
        /\ forall ns, marker_map_of app1 ns = marker_map_of app ns)
  /\ (forall (app : App) (p1 v p2 : string),
        p1 <> p2 ->
        exists sym app1,
          _get_marker_for app p1 v = Ok (sym, app1)
          /\ marker_map_of app1 p2 = marker_map_of app p2
          /\ forall ns, color_map_of app1 ns = color_map_of app ns)
  /\ (exists app1 app2,
        _get_color_for app_energy_10 "energy" "6" = Ok ("#E69F00", app1)
        /\ _get_color_for app1 "fov@depth" "6" = Ok ("#0072B2", app2)
        /\ color_map_of app2 "energy" !! "6" = Some "#E69F00"
        /\ color_map_of app2 "fov@depth" !! "6" = Some "#0072B2"
        /\ color_map_of app2 "energy" = color_map_of app1 "energy").
Proof.
  split; [|split].
  - intros app p1 v p2 Hne.
    destruct (get_color_total app p1 v) as (sym & app1 & Ha).
    exists sym, app1. split; [exact Ha|]. split.
    + rewrite get_color_allocate in Ha.
      exact (allocate_other OKABE_ITO color_maps set_color_maps
               color_get_set color_set_get okabe_ito_nonempty
               app app1 (color_ns p1) v sym (color_ns p2) Hne Ha).
    + intros ns. apply marker_map_of_colors_only.
      eapply get_color_keeps_markers. exact Ha.
  - intros app p1 v p2 Hne.
    destruct (get_marker_total app p1 v) as (sym & app1 & Ha).
    exists sym, app1. split; [exact Ha|]. split.
    + rewrite get_marker_allocate in Ha.
      destruct (negb (PyStr.truthy p1)).
      * now injection Ha as <- <-.
      * exact (allocate_other MARKER_POOL marker_maps set_marker_maps
                 marker_get_set marker_set_get marker_pool_nonempty
                 app app1 p1 v sym p2 Hne Ha).
    + intros ns. apply color_map_of_markers_only.
      eapply get_marker_keeps_colors. exact Ha.
  - eexists. eexists.
    split; [vm_compute; reflexivity|].
    split; [vm_compute; reflexivity|].
    repeat split; vm_compute; reflexivity.
Qed.

Lemma okabe_ito_nodup : NoDup OKABE_ITO.
Proof. apply (bool_decide_unpack _). vm_compute. reflexivity. Qed.

(** In a colour namespace whose symbols in use are exactly the eight of
    the pool, every further value receives the first colour. *)
Lemma exhausted_color_is_first (app : App) (param_name value : string) :
  color_map_of app (color_ns param_name) !! _normalize_key value = None ->
  (forall s, s ∈ used_symbols (color_map_of app (color_ns param_name))
             <-> s ∈ OKABE_ITO) ->
  exists app1, _get_color_for app param_name value = Ok ("#0072B2", app1).
Proof.
  intros Hnew Hused. rewrite get_color_allocate.
  destruct (allocate_fresh OKABE_ITO color_maps set_color_maps
              okabe_ito_nonempty app (color_ns param_name) value Hnew)
    as (sym & Hs & _ & Ha).
  change (ns_map color_maps app (color_ns param_name))
    with (color_map_of app (color_ns param_name)) in Hs.
  rewrite (forced_reuse_is_first _ OKABE_ITO "#0072B2" okabe_ito_nodup eq_refl Hused) in Hs.
  injection Hs as <-. eauto.
Qed.

(** C1 (the code at nine earlier allocations). Eight values take the eight
    colours in pool order and the ninth takes the first colour again, as
    [pool[8 mod 8]] asks. With nine allocations made and the pool in use,
    the tenth value takes the first colour once more, where
    [pool[9 mod 8]] is the second. *)
Theorem forced_reuse_repeats_first_colour :
  colors_for default_app "energy" nine_values
  = Ok (OKABE_ITO ++ ["#0072B2"], app_after_nine)
  /\ size (color_map_of app_after_nine "energy") = 9%nat
  /\ used_symbols (color_map_of app_after_nine "energy") = list_to_set OKABE_ITO
  /\ color_map_of app_after_nine "energy" !! _normalize_key "v10" = None
  /\ (exists app10,
        _get_color_for app_after_nine "energy" "v10" = Ok ("#0072B2", app10))
  /\ OKABE_ITO !! (9 `mod` length OKABE_ITO)%nat = Some "#E69F00"
  /\ OKABE_ITO !! (8 `mod` length OKABE_ITO)%nat = Some "#0072B2".
Proof.
  assert (Hu : used_symbols (color_map_of app_after_nine "energy")
               = list_to_set OKABE_ITO) by (vm_compute; reflexivity).
  assert (Hn : color_map_of app_after_nine "energy" !! _normalize_key "v10" = None)
    by (vm_compute; reflexivity).
  split; [vm_compute; reflexivity|].
  split; [vm_compute; reflexivity|].
  split; [exact Hu|]. split; [exact Hn|].
  split; [|split; reflexivity].
  apply exhausted_color_is_first; [exact Hn|].
  intros s. change (color_ns "energy") with "energy".
  rewrite Hu. apply elem_of_list_to_set.
Qed.

(** ** The profile parser *)

Lemma after_first_prefix (c : ascii) (p s : string) :
  PyStr.startswith p s = true ->
  is_Some (PyStr.after_first c p) -> is_Some (PyStr.after_first c s).
Proof.
  revert s; induction p as [|a p IH]; intros s Hp Hs.
  - destruct Hs as [? Hs]. discriminate.
  - destruct s as [|b s]; [discriminate|]. simpl in *.
    apply andb_true_iff in Hp as [Hab Hp]. apply Ascii.eqb_eq in Hab. subst b.
    destruct (Ascii.eqb a c); [eauto|]. now apply IH.
Qed.

(** The index [1] taken after [startswith("...=")] is always there. *)
Lemma split1_snd_after_directive (p line : string) :
  PyStr.startswith p line = true ->
  is_Some (PyStr.after_first "=" p) ->
  exists v, PyStr.split1_snd "=" line = Ok v.
Proof.
  intros Hp Hs. unfold PyStr.split1_snd.
  destruct (after_first_prefix "=" p line Hp Hs) as [v ->]. eauto.
Qed.

Lemma is_profile_kind_cases (k : string) :
  is_profile_kind (Some k) = true -> k = "inplane" \/ k = "crossplane".
Proof.
  simpl. intros H. apply orb_true_iff in H as [H|H];
    apply String.eqb_eq in H; auto.
Qed.

Lemma nonempty_true {A : Type} (l : list A) : nonempty l = true -> l <> [].
Proof. destruct l; [discriminate | discriminate]. Qed.

Lemma commit_ok (st : PState) :
  res_ok (res st) ->
  exists r, commit st = Ok (set_bufs [] [] (set_res r st)) /\ res_ok r.
Proof.
  intros Hok. pose proof Hok as (Hi & Hc & Hall). unfold commit.
  destruct (current_kind st) as [k|];
    [|exists (res st); split; [reflexivity | exact Hok]].
  destruct (is_profile_kind (Some k) && nonempty (buf_xs st) && nonempty (buf_ys st)) eqn:E;
    [|exists (res st); split; [reflexivity | exact Hok]].
  apply andb_true_iff in E as [E Hy]. apply andb_true_iff in E as [Hk Hx].
  apply nonempty_true in Hx, Hy.
  assert (Hl : is_Some (res st !! k)).
  { destruct (is_profile_kind_cases k Hk) as [->| ->]; assumption. }
  destruct Hl as [l Hl]. rewrite Hl. simpl.
  eexists. split; [reflexivity|].
  split; [|split].
  - destruct (decide (k = "inplane")) as [->|Hne];
      [rewrite lookup_insert_eq | rewrite lookup_insert_ne by exact Hne]; eauto.
  - destruct (decide (k = "crossplane")) as [->|Hne];
      [rewrite lookup_insert_eq | rewrite lookup_insert_ne by exact Hne]; eauto.
  - intros k' l'. destruct (decide (k = k')) as [<-|Hne].
    + rewrite lookup_insert_eq. intros [= <-].
      split; [now apply is_profile_kind_cases|].
      apply Forall_app. split; [now apply (Hall k l)|].
      constructor; [|constructor]. split; assumption.
    + rewrite lookup_insert_ne by exact Hne. apply Hall.
Qed.

Section ParserFacts.

Variable float_of_str : string -> option float.

Lemma read_sample_res (p0 p1 : string) (st : PState) :
  res (read_sample float_of_str p0 p1 st) = res st.
Proof.
  unfold read_sample. destruct (float_of_str p0); [|reflexivity].
  destruct (float_of_str p1); reflexivity.
Qed.

Lemma step_ok (st : PState) (raw : string) :
  res_ok (res st) ->
  exists st', step float_of_str st raw = Ok st' /\ res_ok (res st').
Proof.
  intros Hok. unfold step.
  destruct (PyStr.startswith "SCAN_CURVETYPE=" (PyStr.strip raw)) eqn:E1.
  { destruct (split1_snd_after_directive _ _ E1 ltac:(eexists; reflexivity)) as [v ->].
    destruct (commit_ok st Hok) as (r & Hc & Hr).
    destruct (in_data st); [rewrite Hc|]; simpl;
      repeat match goal with |- context [if ?b then _ else _] => destruct b end;
      eexists; (split; [reflexivity|]); simpl; assumption. }
  destruct (PyStr.startswith "SCAN_DEPTH=" (PyStr.strip raw)) eqn:E2.
  { destruct (split1_snd_after_directive _ _ E2 ltac:(eexists; reflexivity)) as [v ->].
    simpl. eexists; split; [reflexivity|]. exact Hok. }
  destruct (PyStr.contains "BEGIN_DATA" (PyStr.strip raw)).
  { eexists; split; [reflexivity|]. exact Hok. }
  destruct (PyStr.contains "END_DATA" (PyStr.strip raw)).
  { destruct (commit_ok st Hok) as (r & Hc & Hr).
    destruct (in_data st); [rewrite Hc|]; simpl;
      eexists; (split; [reflexivity|]); simpl; assumption. }
  destruct (in_data st && kind_truthy (current_kind st)).
  - destruct (PyStr.split (PyStr.strip raw)) as [|p0 [|p1 rest]];
      eexists; (split; [reflexivity|]); try exact Hok.
    now rewrite read_sample_res.
  - eexists; split; [reflexivity|]. exact Hok.
Qed.

Lemma run_ok (lines : list string) (st : PState) :
  res_ok (res st) ->
  exists st', run float_of_str st lines = Ok st' /\ res_ok (res st').
Proof.
  revert st; induction lines as [|raw lines IH]; intros st Hok; simpl.
  - eauto.
  - destruct (step_ok st raw Hok) as (st1 & -> & Hok1). simpl. now apply IH.
Qed.

Lemma init_state_ok : res_ok (res init_state).
Proof.
  unfold init_state; simpl. split; [|split].
  - rewrite lookup_insert_ne by discriminate. rewrite lookup_insert_eq. eauto.
  - rewrite lookup_insert_eq. eauto.
  - intros k l.
    destruct (decide ("crossplane" = k)) as [<-|H1].
    { rewrite lookup_insert_eq. intros [= <-]. split; [now right | constructor]. }
    rewrite lookup_insert_ne by exact H1.
    destruct (decide ("inplane" = k)) as [<-|H2].
    { rewrite lookup_insert_eq. intros [= <-]. split; [now left | constructor]. }
    rewrite lookup_insert_ne by exact H2. rewrite lookup_empty. discriminate.
Qed.

Lemma finish_ok (st : PState) :
  res_ok (res st) -> exists r, finish st = Ok r /\ emitted_ok r.
Proof.
  intros Hok. unfold finish.
  assert (H1 : exists st1, (if in_data st then commit st else Ok st) = Ok st1
                           /\ res_ok (res st1)).
  { destruct (in_data st); [|eauto].
    destruct (commit_ok st Hok) as (r & -> & Hr). eauto. }
  destruct H1 as (st1 & -> & (Hi & Hc & Hall)). simpl.
  destruct Hi as [li Hi]. destruct Hc as [lc Hc].
  unfold drop_if_empty. rewrite Hi.
  destruct li as [|ci li]; simpl.
  - rewrite lookup_delete_ne by discriminate. rewrite Hc.
    destruct lc as [|cc lc].
    + eexists; split; [reflexivity|]. intros k l Hk.
      destruct (decide ("crossplane" = k)) as [<-|N1];
        [rewrite lookup_delete_eq in Hk; discriminate|].
      rewrite lookup_delete_ne in Hk by exact N1.
      destruct (decide ("inplane" = k)) as [<-|N2];
        [rewrite lookup_delete_eq in Hk; discriminate|].
      rewrite lookup_delete_ne in Hk by exact N2.
      destruct (Hall k l Hk) as [[->| ->] _]; congruence.
    + eexists; split; [reflexivity|]. intros k l Hk.
      destruct (decide ("inplane" = k)) as [<-|N2];
        [rewrite lookup_delete_eq in Hk; discriminate|].
      rewrite lookup_delete_ne in Hk by exact N2.
      destruct (Hall k l Hk) as [Hkk Hg]. split; [exact Hkk|]. split; [|exact Hg].
      destruct Hkk as [->| ->]; congruence.
  - rewrite Hc.
    destruct lc as [|cc lc].
    + eexists; split; [reflexivity|]. intros k l Hk.
      destruct (decide ("crossplane" = k)) as [<-|N1];
        [rewrite lookup_delete_eq in Hk; discriminate|].
      rewrite lookup_delete_ne in Hk by exact N1.
      destruct (Hall k l Hk) as [Hkk Hg]. split; [exact Hkk|]. split; [|exact Hg].
      destruct Hkk as [->| ->]; congruence.
    + eexists; split; [reflexivity|]. intros k l Hk.
      destruct (Hall k l Hk) as [Hkk Hg]. split; [exact Hkk|]. split; [|exact Hg].
      destruct Hkk as [->| ->]; congruence.
Qed.

Lemma parse_lines_ok (lines : list string) :
  exists r, parse_lines float_of_str lines = Ok r /\ emitted_ok r.
Proof.
  unfold parse_lines.
  destruct (run_ok lines init_state init_state_ok) as (st & -> & Hok).
  simpl. now apply finish_ok.
Qed.

End ParserFacts.

Lemma commit_empty_ys (st : PState) :
  buf_ys st = [] -> commit st = Ok (set_bufs [] [] (set_res (res st) st)).
Proof.
  intros Hy. unfold commit. rewrite Hy. simpl.
  destruct (current_kind st) as [k|]; [|reflexivity].
  now rewrite andb_false_r.
Qed.

Section EmptyBlocks.

Variable float_of_str : string -> option float.

Lemma step_no_sample (st : PState) (raw : string) :
  buf_ys st = [] -> yields_sample float_of_str raw = false ->
  exists st', step float_of_str st raw = Ok st'
              /\ buf_ys st' = [] /\ res st' = res st.
Proof.
  intros Hy Hs. unfold step.
  destruct (PyStr.startswith "SCAN_CURVETYPE=" (PyStr.strip raw)) eqn:E1.
  { destruct (split1_snd_after_directive _ _ E1 ltac:(eexists; reflexivity)) as [v ->].
    rewrite (commit_empty_ys st Hy).
    destruct (in_data st); simpl;
      repeat match goal with |- context [if ?b then _ else _] => destruct b end;
      eexists; (split; [reflexivity|]); simpl; auto. }
  destruct (PyStr.startswith "SCAN_DEPTH=" (PyStr.strip raw)) eqn:E2.
  { destruct (split1_snd_after_directive _ _ E2 ltac:(eexists; reflexivity)) as [v ->].
    simpl. eexists; split; [reflexivity|]. simpl. auto. }
  destruct (PyStr.contains "BEGIN_DATA" (PyStr.strip raw)).
  { eexists; split; [reflexivity|]. simpl. auto. }
  destruct (PyStr.contains "END_DATA" (PyStr.strip raw)).
  { rewrite (commit_empty_ys st Hy).
    destruct (in_data st); simpl; eexists; (split; [reflexivity|]); simpl; auto. }
  destruct (in_data st && kind_truthy (current_kind st));
    [|eexists; split; [reflexivity|]; auto].
  unfold yields_sample in Hs.
  destruct (PyStr.split (PyStr.strip raw)) as [|p0 [|p1 rest]];
    try (eexists; split; [reflexivity|]; auto).
  unfold read_sample.
  destruct (float_of_str p0); [|auto].
  destruct (float_of_str p1); [discriminate|]. simpl. auto.
Qed.

Lemma run_no_sample (block : list string) (st : PState) :
  buf_ys st = [] ->
  (forall l, In l block -> yields_sample float_of_str l = false) ->
  exists st', run float_of_str st block = Ok st'
              /\ buf_ys st' = [] /\ res st' = res st.
Proof.
  intros Hy. revert st Hy. induction block as [|raw block IH]; intros st Hy Hb; simpl.
  - eauto.
  - destruct (step_no_sample st raw Hy (Hb raw (or_introl eq_refl)))
      as (st1 & -> & Hy1 & Hr1). simpl.
    destruct (IH st1 Hy1 (fun l Hl => Hb l (or_intror Hl))) as (st2 & E2 & Hy2 & Hr2).
    exists st2. split; [exact E2|]. split; [exact Hy2 | congruence].
Qed.

Lemma run_app (l1 l2 : list string) (st st1 : PState) :
  run float_of_str st l1 = Ok st1 ->
  run float_of_str st (l1 ++ l2) = run float_of_str st1 l2.
Proof.
  revert st; induction l1 as [|raw l1 IH]; intros st; simpl.
  - now intros [= ->].
  - destruct (step float_of_str st raw) as [st'|e]; simpl; [apply IH | discriminate].
Qed.

(** C6. The parser returns a mapping whatever the text (or [{}] when the
    file cannot be read); a key of the mapping is one of the two
    orientations and its list is not empty, and every curve of it has
    values both in [xs] and in [ys]. From any state of the parser, a data
    block none of whose lines yields a sample leaves the curves collected
    so far as they were. *)
Theorem parser_emits_no_empty_curve :
  (forall content : option string,
      exists r, parse_mcc_profiles_all float_of_str content = Ok r
                /\ forall k l, r !! k = Some l ->
                     (k = "inplane" \/ k = "crossplane")
                     /\ l <> []
                     /\ Forall (fun c => xs c <> [] /\ ys c <> []) l)
  /\ (forall (st : PState) (block : list string),
        (forall l, In l block -> yields_sample float_of_str l = false) ->
        exists st',
          run float_of_str st ("BEGIN_DATA" :: block ++ ["END_DATA"]) = Ok st'
          /\ res st' = res st /\ in_data st' = false /\ buf_ys st' = []).
Proof.
  split.
  - intros [text|]; simpl.
    + apply parse_lines_ok.
    + exists ∅. split; [reflexivity|]. intros k l H.
      rewrite lookup_empty in H. discriminate.
  - intros st block Hb.
    change (run float_of_str st ("BEGIN_DATA" :: block ++ ["END_DATA"]))
      with (run float_of_str (set_bufs [] [] (set_in_data true st))
              (block ++ ["END_DATA"])).
    destruct (run_no_sample block (set_bufs [] [] (set_in_data true st))
                eq_refl Hb) as (st1 & E1 & Hy1 & Hr1).
    rewrite (run_app _ _ _ _ E1).
    change (run float_of_str st1 ["END_DATA"])
      with (let! st2 := (let! c := (if in_data st1 then commit st1 else Ok st1) in
                         Ok (set_in_data false c)) in Ok st2).
    rewrite (commit_empty_ys st1 Hy1).
    destruct (in_data st1) eqn:Ein; simpl;
      (eexists; split; [reflexivity|]; simpl; auto).
Qed.

End EmptyBlocks.

(** *** Files made of well-formed blocks *)

Section WellFormed.

Variable float_of_str : string -> option float.

Lemma step_sample (st : PState) (line : string) (x y : float) :
  in_data st = true -> kind_truthy (current_kind st) = true ->
  sample_of float_of_str line = Some (x, y) ->
  step float_of_str st line
  = Ok (set_bufs (buf_xs st ++ [x]) (buf_ys st ++ [y]) st).
Proof.
  intros Hin Hk Hs. unfold sample_of in Hs. unfold step.
  destruct (PyStr.startswith "SCAN_CURVETYPE=" (PyStr.strip line)); [discriminate|].
  destruct (PyStr.startswith "SCAN_DEPTH=" (PyStr.strip line)); [discriminate|].
  destruct (PyStr.contains "BEGIN_DATA" (PyStr.strip line)); [discriminate|].
  destruct (PyStr.contains "END_DATA" (PyStr.strip line)); [discriminate|].
  simpl in Hs. rewrite Hin, Hk. simpl.
  destruct (PyStr.split (PyStr.strip line)) as [|p0 [|p1 rest]]; try discriminate.
  unfold read_sample.
  destruct (float_of_str p0) as [x0|]; [|discriminate].
  destruct (float_of_str p1) as [y0|]; [|discriminate].
  injection Hs as -> ->. reflexivity.
Qed.

Lemma run_samples (lines : list string) (st : PState) :
  in_data st = true -> kind_truthy (current_kind st) = true ->
  (forall l, In l lines -> is_Some (sample_of float_of_str l)) ->
  run float_of_str st lines
  = Ok (set_bufs (buf_xs st ++ map fst (samples_of float_of_str lines))
          (buf_ys st ++ map snd (samples_of float_of_str lines)) st).
Proof.
  revert st; induction lines as [|line lines IH]; intros st Hin Hk Hall.
  - simpl. rewrite !app_nil_r. now destruct st.
  - destruct (Hall line (or_introl eq_refl)) as [[x y] Hs].
    cbn [run]. rewrite (step_sample st line x y Hin Hk Hs). cbn [bind].
    rewrite IH; [|exact Hin|exact Hk|intros l Hl; apply Hall; now right].
    cbn [samples_of]. rewrite Hs. simpl.
    now rewrite <- !app_assoc.
Qed.

Lemma samples_nonempty (lines : list string) :
  lines <> [] -> (forall l, In l lines -> is_Some (sample_of float_of_str l)) ->
  samples_of float_of_str lines <> [].
Proof.
  destruct lines as [|line lines]; [congruence|]. intros _ Hall.
  destruct (Hall line (or_introl eq_refl)) as [[x y] Hs].
  cbn [samples_of]. rewrite Hs. discriminate.
Qed.

Lemma samples_same_length (lines : list string) :
  length (map fst (samples_of float_of_str lines)) = length (map snd (samples_of float_of_str lines)).
Proof. now rewrite !length_map. Qed.

Lemma step_curvetype (st : PState) (cross : bool) :
  in_data st = false ->
  step float_of_str st
    (if cross then "SCAN_CURVETYPE=CROSSPLANE_PROFILE"
     else "SCAN_CURVETYPE=INPLANE_PROFILE")
  = Ok (set_kind (Some (if cross then "crossplane" else "inplane")) st).
Proof.
  intros Hin. destruct cross; unfold step; rewrite Hin; reflexivity.
Qed.

Lemma strip_depth_line (d : string) :
  PyStr.strip d = d -> PyStr.strip ("SCAN_DEPTH=" ++ d) = ("SCAN_DEPTH=" ++ d)%string.
Proof.
  intros Hd.
  assert (Hr : PyStr.rstrip d = d).
  { pose proof (PyStrFacts.trimmed_lstrip d Hd) as Hl.
    unfold PyStr.strip in Hd. now rewrite Hl in Hd. }
  unfold PyStr.strip. simpl. now rewrite Hr.
Qed.

Lemma step_depth (st : PState) (d : string) :
  PyStr.strip d = d ->
  step float_of_str st ("SCAN_DEPTH=" ++ d)
  = Ok (set_depth (float_of_str d) st).
Proof.
  intros Hd. unfold step. rewrite (strip_depth_line d Hd). simpl.
  now rewrite Hd.
Qed.

Lemma step_begin (st : PState) :
  step float_of_str st "BEGIN_DATA" = Ok (set_bufs [] [] (set_in_data true st)).
Proof. reflexivity. Qed.

Lemma step_end (st : PState) :
  step float_of_str st "END_DATA"
  = (let! st1 := (if in_data st then commit st else Ok st) in
     Ok (set_in_data false st1)).
Proof. reflexivity. Qed.

(** One well-formed block appends its curve under its orientation. *)
Lemma run_block (b : Block) (st : PState) (l : list Curve) :
  well_formed float_of_str b -> in_data st = false ->
  res st !! block_kind b = Some l ->
  run float_of_str st (render_block b)
  = Ok (mkPState (Some (block_kind b)) (float_of_str (b_depth b)) false [] []
          (<[block_kind b := l ++ [curve_of_block float_of_str b]]> (res st))).
Proof.
  intros (Hne & Hd & Hall) Hin Hl. unfold render_block.
  change ([?a; ?b0; ?c] ++ ?r) with (a :: b0 :: c :: r).
  cbn [run]. rewrite (step_curvetype st (b_cross b) Hin). cbn [bind].
  rewrite (step_depth _ (b_depth b) Hd). cbn [bind].
  rewrite step_begin. cbn [bind].
  erewrite (run_app float_of_str);
    [|apply run_samples; [reflexivity | now destruct (b_cross b) | exact Hall]].
  cbn [run]. rewrite step_end. cbn [in_data set_bufs].
  pose proof (samples_nonempty (b_lines b) Hne Hall) as Hs.
  unfold commit. cbn [current_kind set_bufs set_in_data set_depth set_kind
    buf_xs buf_ys res current_depth app].
  destruct (samples_of float_of_str (b_lines b)) as [|[x y] ss] eqn:Es; [congruence|].
  unfold curve_of_block, block_kind in *. rewrite Es.
  destruct (b_cross b); cbn; rewrite Hl; reflexivity.
Qed.

Lemma run_blocks (bs : list Block) (st : PState) (li lc : list Curve) :
  (forall b, In b bs -> well_formed float_of_str b) -> in_data st = false ->
  res st !! "inplane" = Some li -> res st !! "crossplane" = Some lc ->
  exists st',
    run float_of_str st (concat (map render_block bs)) = Ok st'
    /\ in_data st' = false
    /\ res st' !! "inplane"
       = Some (li ++ map (curve_of_block float_of_str) (inplane_blocks bs))
    /\ res st' !! "crossplane"
       = Some (lc ++ map (curve_of_block float_of_str) (crossplane_blocks bs)).
Proof.
  revert st li lc; induction bs as [|b bs IH]; intros st li lc Hwf Hin Hi Hc.
  - exists st. simpl. rewrite !app_nil_r. auto.
  - cbn [map concat].
    assert (Hb : well_formed float_of_str b) by (apply Hwf; now left).
    destruct (b_cross b) eqn:Eb.
    + assert (Hk : res st !! block_kind b = Some lc)
        by (unfold block_kind; now rewrite Eb).
      pose proof (run_block b st lc Hb Hin Hk) as Hrun.
      rewrite (run_app float_of_str _ _ _ _ Hrun).
      unfold block_kind in Hrun |- *. rewrite Eb in Hrun |- *.
      match type of Hrun with
      | _ = Ok ?s =>
          destruct (IH s li (lc ++ [curve_of_block float_of_str b]))
            as (st' & E & Hin' & Hi' & Hc')
      end.
      * intros b' Hb'. apply Hwf. now right.
      * reflexivity.
      * cbn [res]. rewrite lookup_insert_ne by discriminate. exact Hi.
      * cbn [res]. apply lookup_insert_eq.
      * exists st'. split; [exact E|]. split; [exact Hin'|].
        unfold inplane_blocks, crossplane_blocks in *. cbn [List.filter].
        rewrite Eb. cbn [negb map]. split; [exact Hi'|].
        rewrite Hc'. now rewrite <- app_assoc.
    + assert (Hk : res st !! block_kind b = Some li)
        by (unfold block_kind; now rewrite Eb).
      pose proof (run_block b st li Hb Hin Hk) as Hrun.
      rewrite (run_app float_of_str _ _ _ _ Hrun).
      unfold block_kind in Hrun |- *. rewrite Eb in Hrun |- *.
      match type of Hrun with
      | _ = Ok ?s =>
          destruct (IH s (li ++ [curve_of_block float_of_str b]) lc)
            as (st' & E & Hin' & Hi' & Hc')
      end.
      * intros b' Hb'. apply Hwf. now right.
      * reflexivity.
      * cbn [res]. apply lookup_insert_eq.
      * cbn [res]. rewrite lookup_insert_ne by discriminate. exact Hc.
      * exists st'. split; [exact E|]. split; [exact Hin'|].
        unfold inplane_blocks, crossplane_blocks in *. cbn [List.filter].
        rewrite Eb. cbn [negb map]. split; [|exact Hc'].
        rewrite Hi'. now rewrite <- app_assoc.
Qed.

Lemma filter_partition_length (bs : list Block) :
  (length (inplane_blocks bs) + length (crossplane_blocks bs) = length bs)%nat.
Proof.
  unfold inplane_blocks, crossplane_blocks.
  induction bs as [|b bs IH]; [reflexivity|]. cbn [List.filter].
  destruct (b_cross b); simpl; lia.
Qed.

(** A file made of well-formed profile blocks, each an orientation line, a
    depth line and a data block whose lines are all samples, gives one
    curve per block, in file order under its orientation, with the block's
    depth and the first two numbers of each line. *)
Theorem parse_well_formed_blocks (bs : list Block) :
  (forall b, In b bs -> well_formed float_of_str b) ->
  exists r,
    parse_lines float_of_str (concat (map render_block bs)) = Ok r
    /\ profile_list r "inplane" = map (curve_of_block float_of_str) (inplane_blocks bs)
    /\ profile_list r "crossplane" = map (curve_of_block float_of_str) (crossplane_blocks bs)
    /\ (length (profile_list r "inplane") + length (profile_list r "crossplane")
        = length bs)%nat
    /\ (forall c, In c (profile_list r "inplane" ++ profile_list r "crossplane") ->
        length (xs c) = length (ys c)).
Proof.
  intros Hwf.
  destruct (run_blocks bs (init_state) [] [] Hwf eq_refl eq_refl eq_refl)
    as (st & E & Hin & Hi & Hc).
  cbn [app] in Hi, Hc.
  assert (F : exists r, parse_lines float_of_str (concat (map render_block bs)) = Ok r
    /\ profile_list r "inplane" = map (curve_of_block float_of_str) (inplane_blocks bs)
    /\ profile_list r "crossplane" = map (curve_of_block float_of_str) (crossplane_blocks bs)).
  { unfold parse_lines. rewrite E. cbn [bind]. unfold finish. rewrite Hin.
    cbn [bind]. unfold drop_if_empty, profile_list. rewrite Hi.
    destruct (map (curve_of_block float_of_str) (inplane_blocks bs)) as [|ci li] eqn:Ei; cbn [bind].
    - rewrite lookup_delete_ne by discriminate. rewrite Hc.
      destruct (map (curve_of_block float_of_str) (crossplane_blocks bs)) as [|cc lc] eqn:Ec.
      + eexists. split; [reflexivity|].
        rewrite lookup_delete_ne by discriminate.
        rewrite !lookup_delete_eq. auto.
      + eexists. split; [reflexivity|].
        rewrite lookup_delete_eq, lookup_delete_ne by discriminate.
        rewrite Hc. auto.
    - rewrite Hc.
      destruct (map (curve_of_block float_of_str) (crossplane_blocks bs)) as [|cc lc] eqn:Ec.
      + eexists. split; [reflexivity|].
        rewrite lookup_delete_eq, lookup_delete_ne by discriminate.
        rewrite Hi. auto.
      + eexists. split; [reflexivity|]. rewrite Hi, Hc. auto. }
  destruct F as (r & Er & Ri & Rc). exists r.
  split; [exact Er|]. split; [exact Ri|]. split; [exact Rc|]. split.
  - rewrite Ri, Rc, !length_map. apply filter_partition_length.
  - intros c Hc'. rewrite Ri, Rc, <- map_app in Hc'.
    apply in_map_iff in Hc' as (b & <- & _). apply samples_same_length.
Qed.

End WellFormed.

(** Two blocks, one per orientation, read from the text of a file. *)
Example two_blocks_two_curves :
  parse_mcc_profiles_all PyFloat.decimal (Some "BEGIN_SCAN  1
SCAN_CURVETYPE=INPLANE_PROFILE
SCAN_DEPTH=100.00
BEGIN_DATA
  -10.0  55.5  #1
  0  100
END_DATA
SCAN_CURVETYPE=CROSSPLANE_PROFILE
SCAN_DEPTH=50
BEGIN_DATA
  1,5 2
  0.5  99.25
END_DATA
END_SCAN  1
")
  = Ok (<["crossplane" := [mkCurve (Some 50%float) [0.5%float] [99.25%float]]]>
        (<["inplane" :=
             [mkCurve (Some 100%float) [(-10)%float; 0%float] [55.5%float; 100%float]]]>
           ∅)).
Proof. vm_compute. reflexivity. Qed.

(** A file whose only data block holds junk gives the empty mapping. *)
Example junk_block_gives_no_curve :
  parse_mcc_profiles_all PyFloat.decimal (Some "SCAN_CURVETYPE=INPLANE_PROFILE
SCAN_DEPTH=100.0
BEGIN_DATA
# no data
1.0 abc
END_DATA
") = Ok ∅.
Proof. vm_compute. reflexivity. Qed.

(** C2 (the code on a block with a half-numeric line). The line
    [1.0 abc] is not a sample, yet its first token stays in [xs]: the one
    curve committed has two abscissas for one ordinate, where the
    well-formed line [2.0 3.0] alone should give [xs = [2.0]] and
    [ys = [3.0]]. *)
Theorem half_sample_line_leaks_into_xs :
  yields_sample PyFloat.decimal "1.0 abc" = false
  /\ yields_sample PyFloat.decimal "2.0 3.0" = true
  /\ parse_mcc_profiles_all PyFloat.decimal (Some half_sample_file)
     = Ok (<["inplane" :=
              [mkCurve (Some 100%float) [1%float; 2%float] [3%float]]]> ∅)
  /\ length [1%float; 2%float] <> length [3%float].
Proof.
  split; [vm_compute; reflexivity|].
  split; [vm_compute; reflexivity|].
  split; [vm_compute; reflexivity|].
  simpl. lia.
Qed.

(* ===================================================================== *)
(** * Further properties of the code *)
(* ===================================================================== *)

(** ** Header extraction *)

Lemma lstrip_idem (s : string) : PyStr.lstrip (PyStr.lstrip s) = PyStr.lstrip s.
Proof.
  induction s as [|c s IH]; [reflexivity|]. simpl.
  destruct (PyStr.isspace c) eqn:E; [exact IH|]. simpl. now rewrite E.
Qed.

Lemma rstrip_idem (s : string) : PyStr.rstrip (PyStr.rstrip s) = PyStr.rstrip s.
Proof.
  induction s as [|c s IH]; [reflexivity|]. simpl.
  destruct (PyStr.isspace c && PyStr.is_empty (PyStr.rstrip s)) eqn:E;
    [reflexivity|].
  simpl. now rewrite IH, E.
Qed.

Lemma lstrip_fixed_head (c : ascii) (r : string) :
  PyStr.lstrip (String c r) = String c r -> PyStr.isspace c = false.
Proof.
  simpl. destruct (PyStr.isspace c) eqn:E; [|reflexivity].
  intros H. exfalso. pose proof (PyStrFacts.lstrip_length r) as HL.
  rewrite H in HL. simpl in HL. lia.
Qed.

Lemma lstrip_rstrip_fixed (t : string) :
  PyStr.lstrip t = t -> PyStr.lstrip (PyStr.rstrip t) = PyStr.rstrip t.
Proof.
  destruct t as [|c r]; [reflexivity|]. intros H.
  pose proof (lstrip_fixed_head c r H) as Hc.
  simpl. rewrite Hc. simpl. now rewrite Hc.
Qed.

(** [strip] leaves a stripped text alone. *)
Lemma strip_idem (s : string) : PyStr.strip (PyStr.strip s) = PyStr.strip s.
Proof.
  unfold PyStr.strip.
  rewrite (lstrip_rstrip_fixed (PyStr.lstrip s) (lstrip_idem s)).
  apply rstrip_idem.
Qed.

Lemma upper_char_key (c : ascii) :
  is_word_char c = true -> is_key_char (PyStr.upper_char c) = true.
Proof.
  destruct c as [[] [] [] [] [] [] [] []]; vm_compute; intros H;
    first [reflexivity | discriminate H].
Qed.

Lemma key_char_upper (c : ascii) :
  is_key_char c = true -> PyStr.upper_char c = c.
Proof.
  destruct c as [[] [] [] [] [] [] [] []]; vm_compute; intros H;
    first [reflexivity | discriminate H].
Qed.

Lemma span_word_all (s : string) : all_chars is_word_char (fst (span_word s)) = true.
Proof.
  induction s as [|c s IH]; [reflexivity|]. simpl.
  destruct (is_word_char c) eqn:E; [|reflexivity]. simpl. now rewrite E.
Qed.

Lemma upper_key_chars (k : string) :
  all_chars is_word_char k = true -> all_chars is_key_char (PyStr.upper k) = true.
Proof.
  unfold PyStr.upper. induction k as [|c k IH]; [reflexivity|]. simpl.
  intros H. apply andb_true_iff in H as [Hc Hk].
  now rewrite (upper_char_key c Hc), (IH Hk).
Qed.

Lemma key_chars_upper (k : string) :
  all_chars is_key_char k = true -> PyStr.upper k = k.
Proof.
  unfold PyStr.upper. induction k as [|c k IH]; [reflexivity|]. simpl.
  intros H. apply andb_true_iff in H as [Hc Hk].
  now rewrite (key_char_upper c Hc), (IH Hk).
Qed.

Lemma upper_is_empty (k : string) :
  PyStr.is_empty (PyStr.upper k) = PyStr.is_empty k.
Proof. now destruct k. Qed.

(** What a header line can contribute: a key in upper case that is not
    empty, and a value with no blank around it. *)
Lemma header_entry_shape (raw k v : string) :
  header_entry raw = Some (k, v) ->
  PyStr.is_empty k = false /\ all_chars is_key_char k = true
  /\ PyStr.strip v = v.
Proof.
  unfold header_entry.
  destruct (PyStr.contains "BEGIN_DATA" raw || PyStr.contains "END_DATA" raw);
    [discriminate|].
  destruct (kv_match raw) as [[key value]|] eqn:E; [|discriminate].
  intros [= <- <-]. unfold kv_match in E.
  destruct (PyStr.is_empty (fst (span_word (PyStr.lstrip raw)))) eqn:Hk;
    [discriminate|].
  assert (Hkey : key = fst (span_word (PyStr.lstrip raw))).
  { destruct (PyStr.lstrip (snd (span_word (PyStr.lstrip raw)))) as [|c rest];
      [discriminate|].
    destruct c as [[] [] [] [] [] [] [] []]; try discriminate E.
    destruct (PyStr.is_empty (PyStr.strip rest)).
    - destruct (has_char (fun c => negb (is_LF c)) rest); [|discriminate].
      now injection E as <- _.
    - destruct (has_char is_LF (PyStr.strip rest)); [discriminate|].
      now injection E as <- _. }
  subst key. rewrite upper_is_empty. split; [exact Hk|]. split.
  - apply upper_key_chars, span_word_all.
  - apply strip_idem.
Qed.

Lemma scan_line_entry (kv : Meta) (raw : string) :
  scan_line kv raw
  = match header_entry raw with
    | Some (k, v) => dict_set kv k v
    | None => kv
    end.
Proof.
  unfold scan_line, header_entry.
  destruct (PyStr.contains "BEGIN_DATA" raw || PyStr.contains "END_DATA" raw);
    [reflexivity|].
  now destruct (kv_match raw) as [[key value]|].
Qed.

Lemma dict_get_set (meta : Meta) (k v k' : string) :
  dict_get (dict_set meta k v) k'
  = if String.eqb k k' then Some v else dict_get meta k'.
Proof.
  induction meta as [|[a b] meta IH]; simpl.
  - destruct (String.eqb k k'); reflexivity.
  - destruct (String.eqb a k) eqn:E1; simpl.
    + apply String.eqb_eq in E1. subst a.
      destruct (String.eqb k k'); reflexivity.
    + destruct (String.eqb a k') eqn:E2; [|exact IH].
      apply String.eqb_eq in E2. subst a. now rewrite String.eqb_sym, E1.
Qed.

Lemma dict_set_In (meta : Meta) (k v k' v' : string) :
  In (k', v') (dict_set meta k v) -> (k' = k /\ v' = v) \/ In (k', v') meta.
Proof.
  induction meta as [|[a b] meta IH]; simpl.
  - intros [[= <- <-]|[]]. now left.
  - destruct (String.eqb a k) eqn:E; simpl.
    + apply String.eqb_eq in E. subst a.
      intros [[= <- <-]|H]; [now left | right; now right].
    + intros [H|H]; [right; now left|].
      destruct (IH H) as [H'|H']; [now left | right; now right].
Qed.

Lemma dict_set_keys (meta : Meta) (k v : string) :
  map fst (dict_set meta k v)
  = if existsb (String.eqb k) (map fst meta) then map fst meta
    else map fst meta ++ [k].
Proof.
  induction meta as [|[a b] meta IH]; simpl; [reflexivity|].
  rewrite (String.eqb_sym k a).
  destruct (String.eqb a k) eqn:E; simpl.
  - apply String.eqb_eq in E. now subst a.
  - rewrite IH. now destruct (existsb (String.eqb k) (map fst meta)).
Qed.

Lemma dict_set_NoDup (meta : Meta) (k v : string) :
  NoDup (map fst meta) -> NoDup (map fst (dict_set meta k v)).
Proof.
  intros H. rewrite dict_set_keys.
  destruct (existsb (String.eqb k) (map fst meta)) eqn:E; [exact H|].
  apply (proj2 (NoDup_app _ _)). split; [exact H|]. split.
  - intros x Hx Hk. apply list_elem_of_singleton in Hk. subst x.
    assert (Ht : existsb (String.eqb k) (map fst meta) = true).
    { apply existsb_exists. exists k. split; [now apply list_elem_of_In|].
      apply String.eqb_refl. }
    congruence.
  - apply NoDup_singleton.
Qed.

Lemma scan_line_ok (kv : Meta) (raw : string) :
  header_ok kv -> header_ok (scan_line kv raw).
Proof.
  intros [Hnd Hall]. rewrite scan_line_entry.
  destruct (header_entry raw) as [[k v]|] eqn:E; [|now split].
  split; [now apply dict_set_NoDup|].
  intros k' v' Hin. destruct (dict_set_In _ _ _ _ _ Hin) as [[-> ->]|H].
  - now apply (header_entry_shape raw).
  - now apply Hall.
Qed.

Lemma scan_fold_ok (lines : list string) (kv : Meta) :
  header_ok kv -> header_ok (fold_left scan_line lines kv).
Proof.
  revert kv; induction lines as [|raw lines IH]; intros kv H; simpl; [exact H|].
  apply IH. now apply scan_line_ok.
Qed.

Lemma scan_keyvals_ok (lines : list string) : header_ok (_scan_keyvals lines).
Proof.
  apply scan_fold_ok. split; [constructor | intros k v []].
Qed.

(** X1. Whatever the lines, the header built by [_scan_keyvals] has no key
    twice; every key is a non-empty word in upper case (capitals, digits,
    underscore) and every value is stored stripped of the blanks around
    it. *)
Theorem scan_keyvals_header_shape (lines : list string) :
  NoDup (map fst (_scan_keyvals lines))
  /\ forall k v, In (k, v) (_scan_keyvals lines) ->
       k <> EmptyString
       /\ all_chars is_key_char k = true
       /\ PyStr.upper k = k
       /\ PyStr.strip v = v.
Proof.
  destruct (scan_keyvals_ok lines) as [Hnd Hall]. split; [exact Hnd|].
  intros k v Hin. destruct (Hall k v Hin) as (He & Hk & Hv).
  split; [intros ->; discriminate|]. split; [exact Hk|].
  split; [now apply key_chars_upper | exact Hv].
Qed.

Lemma scan_fold_get (lines : list string) (kv : Meta) (K : string) :
  dict_get (fold_left scan_line lines kv) K
  = fold_left (last_setting K) lines (dict_get kv K).
Proof.
  revert kv; induction lines as [|raw lines IH]; intros kv; simpl; [reflexivity|].
  rewrite IH. f_equal. rewrite scan_line_entry. unfold last_setting.
  destruct (header_entry raw) as [[k v]|]; [|reflexivity].
  apply dict_get_set.
Qed.

Lemma last_setting_none (K : string) (lines : list string) (acc : option string) :
  (forall r v, In r lines -> header_entry r <> Some (K, v)) ->
  fold_left (last_setting K) lines acc = acc.
Proof.
  revert acc; induction lines as [|raw lines IH]; intros acc H; simpl; [reflexivity|].
  rewrite IH by (intros r v Hr; apply H; now right).
  unfold last_setting.
  destruct (header_entry raw) as [[k v]|] eqn:E; [|reflexivity].
  destruct (String.eqb k K) eqn:Ek; [|reflexivity].
  apply String.eqb_eq in Ek. subst k.
  exfalso. apply (H raw v); [now left | exact E].
Qed.

Lemma last_setting_some (K : string) (lines : list string) (acc : option string) :
  fold_left (last_setting K) lines acc = None ->
  acc = None /\ forall r v, In r lines -> header_entry r <> Some (K, v).
Proof.
  revert acc; induction lines as [|raw lines IH]; intros acc H; simpl in *.
  - split; [exact H | intros r v []].
  - destruct (IH _ H) as [Ha Hl]. unfold last_setting in Ha.
    destruct (header_entry raw) as [[k v]|] eqn:E.
    + destruct (String.eqb k K) eqn:Ek; [discriminate|].
      split; [exact Ha|]. intros r v' [<-|Hr]; [|now apply Hl].
      rewrite E. intros [= -> ->]. rewrite String.eqb_refl in Ek. discriminate.
    + split; [exact Ha|]. intros r v' [<-|Hr]; [|now apply Hl].
      rewrite E. discriminate.
Qed.

(** X2. Looking a key up in the scanned header gives the value of the last
    line that sets it (a later line overwrites an earlier one, and a line
    holding a data marker sets nothing); the key is absent exactly when no
    line sets it. *)
Theorem scan_keyvals_last_wins (lines : list string) (K : string) :
  (dict_get (_scan_keyvals lines) K = None
   <-> forall r v, In r lines -> header_entry r <> Some (K, v))
  /\ (forall l1 raw l2 v,
        lines = l1 ++ raw :: l2 ->
        header_entry raw = Some (K, v) ->
        (forall r v', In r l2 -> header_entry r <> Some (K, v')) ->
        dict_get (_scan_keyvals lines) K = Some v)
  /\ (forall r : string,
        PyStr.contains "BEGIN_DATA" r = true \/ PyStr.contains "END_DATA" r = true ->
        header_entry r = None).
Proof.
  unfold _scan_keyvals. rewrite scan_fold_get. simpl. split; [split|split].
  - intros H. now apply last_setting_some in H as [_ H].
  - intros H. now apply last_setting_none.
  - intros l1 raw l2 v -> He Hl2.
    rewrite fold_left_app. simpl.
    rewrite last_setting_none by exact Hl2.
    unfold last_setting. now rewrite He, String.eqb_refl.
  - intros r [H|H]; unfold header_entry; rewrite H; simpl;
      [reflexivity | now rewrite orb_true_r].
Qed.

(** Two settings of one key and a marker line that looks like a setting. *)
Example scan_keyvals_run :
  _scan_keyvals
    ["  Energy =  6 MV  "; "DETECTOR=T60019"; "BEGIN_DATA=1"; "energy=10 FFF";
     "no sign here"; "EMPTY=   "]
  = [("ENERGY", "10 FFF"); ("DETECTOR", "T60019"); ("EMPTY", "")].
Proof. vm_compute. reflexivity. Qed.

(** ** Alias lookup *)

(** X4. [_pick] returns the value of the first key of the list that the
    header holds with a value that is not blank, whatever comes after it:
    a key that is missing or blank is passed over, and the result is
    absent exactly when every key of the list is missing or blank. *)
Theorem pick_first_populated (meta : Meta) (keys : list string) :
  (_pick meta keys = None <-> forall k, In k keys -> populated meta k = false)
  /\ (forall v, _pick meta keys = Some v <->
        exists pre k post,
          keys = pre ++ k :: post
          /\ (forall k', In k' pre -> populated meta k' = false)
          /\ dict_get meta k = Some v
          /\ PyStr.truthy (PyStr.strip v) = true).
Proof.
  induction keys as [|key keys [IHn IHs]].
  - split.
    + split; [intros _ k [] | reflexivity].
    + intros v. split; [discriminate|].
      intros (pre & k & post & E & _). now destruct pre.
  - assert (Hstep : _pick meta (key :: keys)
                    = if populated meta key then dict_get meta key
                      else _pick meta keys).
    { simpl. unfold populated. destruct (dict_get meta key) as [w|]; [|reflexivity].
      now destruct (PyStr.truthy (PyStr.strip w)). }
    split.
    + rewrite Hstep. split.
      * intros H k [<-|Hk].
        -- destruct (populated meta key) eqn:E; [|reflexivity].
           unfold populated in E. rewrite H in E. discriminate.
        -- destruct (populated meta key) eqn:E; [|now apply IHn].
           unfold populated in E. rewrite H in E. discriminate.
      * intros H. rewrite (H key (or_introl eq_refl)). apply IHn.
        intros k Hk. apply H. now right.
    + intros v. rewrite Hstep. split.
      * destruct (populated meta key) eqn:E.
        -- intros Hv. exists [], key, keys. split; [reflexivity|].
           split; [intros k' []|]. split; [exact Hv|].
           unfold populated in E. now rewrite Hv in E.
        -- intros Hv. apply IHs in Hv as (pre & k & post & -> & Hpre & Hk & Ht).
           exists (key :: pre), k, post. split; [reflexivity|].
           split; [|now split]. intros k' [<-|Hk']; [exact E | now apply Hpre].
      * intros (pre & k & post & E & Hpre & Hk & Ht).
        destruct pre as [|p pre]; simpl in E; injection E as -> ->.
        -- unfold populated. now rewrite Hk, Ht.
        -- rewrite (Hpre p (or_introl eq_refl)). apply IHs.
           exists pre, k, post. split; [reflexivity|].
           split; [|now split]. intros k' Hk'. apply Hpre. now right.
Qed.

(** The SSD: a blank [SSD] lets [SCAN_SSD] through, in millimetres. *)
Example ssd_alias_run :
  _ssd_cm_from_mm PyFloat.decimal [("SSD", "  "); ("DSP", "850"); ("SCAN_SSD", "900")]
  = Some 90%float.
Proof. vm_compute. reflexivity. Qed.

(** ** Energy of a scanned header *)

(** X3. On the header of a file, the energy is absent exactly when no
    energy key holds a value; otherwise it is the stored text [v] as it
    is, or [v] followed by [" FFF"], never [v] when it already has FFF.
    The suffix is added when [v] has no FFF and the header has, in any
    entries, "FLATTENING" and one of "OFF" and "FREE". *)
Theorem energy_of_scanned_header (lines : list string) :
  let meta := _scan_keyvals lines in
  (_energy_from meta = None <-> _pick meta ENERGY_KEYS = None)
  /\ forall v, _pick meta ENERGY_KEYS = Some v ->
       (_energy_from meta = Some v
        \/ (PyStr.contains "FFF" (PyStr.upper v) = false
            /\ _energy_from meta = Some (v ++ " FFF")%string))
       /\ (PyStr.contains "FFF" (PyStr.upper v) = true ->
           _energy_from meta = Some v)
       /\ (PyStr.contains "FFF" (PyStr.upper v) = false ->
           (exists k1 v1, In (k1, v1) meta
              /\ PyStr.contains "FLATTENING" (PyStr.upper (k1 ++ "=" ++ v1)) = true) ->
           (exists k2 v2, In (k2, v2) meta
              /\ (PyStr.contains "OFF" (PyStr.upper (k2 ++ "=" ++ v2)) = true
                  \/ PyStr.contains "FREE" (PyStr.upper (k2 ++ "=" ++ v2)) = true)) ->
           _energy_from meta = Some (v ++ " FFF")%string).
Proof.
  intros meta.
  assert (Hform : forall v, _pick meta ENERGY_KEYS = Some v ->
            PyStr.truthy v = true /\ PyStr.strip v = v).
  { intros v Hv. split.
    - apply PyStrFacts.truthy_strip. eapply pick_truthy. exact Hv.
    - destruct (scan_keyvals_ok lines) as [_ Hall].
      assert (Hin : exists k, In (k, v) meta).
      { clear -Hv. revert Hv. generalize ENERGY_KEYS as keys.
        induction keys as [|key keys IH]; simpl; [discriminate|].
        destruct (dict_get meta key) as [w|] eqn:E; [|exact IH].
        destruct (PyStr.truthy (PyStr.strip w)); [|exact IH].
        intros [= <-]. exists key. clear -E.
        induction meta as [|[a b] meta IH]; simpl in *; [discriminate|].
        destruct (String.eqb a key) eqn:Ea.
        - apply String.eqb_eq in Ea. injection E as ->. subst a. now left.
        - right. now apply IH. }
      destruct Hin as [k Hin]. now apply (Hall k v Hin). }
  split.
  - unfold _energy_from. destruct (_pick meta ENERGY_KEYS) as [v|] eqn:Hv;
      [|split; reflexivity].
    destruct (Hform v eq_refl) as [Ht _]. rewrite Ht. cbn [negb].
    split; [|discriminate].
    now destruct (negb (PyStr.contains "FFF" (PyStr.upper (PyStr.strip v))) && _).
  - intros v Hv. destruct (Hform v Hv) as [Ht Hs].
    unfold _energy_from. rewrite Hv, Ht, Hs. cbn [negb].
    destruct (PyStr.contains "FFF" (PyStr.upper v)) eqn:Ef; cbn [negb andb orb].
    + split; [now left|]. split; [reflexivity | discriminate].
    + split; [|split; [discriminate|]].
      * destruct (PyStr.contains "FFF" (up_all_of meta)
                  || PyStr.contains "FLATTENING" (up_all_of meta)
                     && (PyStr.contains "OFF" (up_all_of meta)
                         || PyStr.contains "FREE" (up_all_of meta)));
          [right; now split | now left].
      * intros _ (k1 & v1 & H1 & C1) (k2 & v2 & H2 & C2).
        rewrite (up_all_contains "FLATTENING" meta k1 v1 H1 C1).
        destruct C2 as [C2|C2].
        -- rewrite (up_all_contains "OFF" meta k2 v2 H2 C2).
           now rewrite orb_true_r.
        -- rewrite (up_all_contains "FREE" meta k2 v2 H2 C2).
           now rewrite !orb_true_r.
Qed.

(** A flattening filter that is on, next to an offset: the loose test
    still reads "FLATTENING" and "OFF". *)
Example energy_of_scanned_header_run :
  _energy_from (_scan_keyvals ["ENERGY = 6 "; "FLATTENING=ON"; "SCAN_OFFSET=0"])
  = Some "6 FFF".
Proof. vm_compute. reflexivity. Qed.

(** ** Lists of numbers in a text *)

Lemma split_on_go_app (sep : ascii) (a b cur : string) :
  split_on_go sep cur (a ++ String sep b)
  = split_on_go sep cur a ++ split_on sep b.
Proof.
  revert cur; induction a as [|c a IH]; intros cur; simpl.
  - now rewrite Ascii.eqb_refl.
  - destruct (Ascii.eqb c sep); [now rewrite IH | apply IH].
Qed.

Lemma split_on_go_plain (sep : ascii) (s cur : string) :
  has_char (fun c => Ascii.eqb c sep) s = false ->
  split_on_go sep cur s = [(cur ++ s)%string].
Proof.
  revert cur; induction s as [|c s IH]; intros cur; simpl.
  - now rewrite PyStrFacts.append_empty_r.
  - intros H. apply orb_false_iff in H as [Hc Hs]. rewrite Hc.
    rewrite IH by exact Hs. now rewrite PyStrFacts.append_assoc.
Qed.

Lemma replace_char_plain (old new : ascii) (s : string) :
  has_char (fun c => Ascii.eqb c old) s = false ->
  PyStr.replace_char old new s = s.
Proof.
  unfold PyStr.replace_char. induction s as [|c s IH]; [reflexivity|]. simpl.
  intros H. apply orb_false_iff in H as [Hc Hs]. now rewrite Hc, IH.
Qed.

Section CsvFacts.

Variable float_of_str : string -> option float.
Variable round2 : float -> float.

Lemma csv_fold_acc (parts : list string) (acc : list float) :
  fold_left
    (fun out part =>
       match _as_float float_of_str (Some part) with
       | Some val => out ++ [val]
       | None => out
       end) parts acc
  = acc ++ fold_left
      (fun out part =>
         match _as_float float_of_str (Some part) with
         | Some val => out ++ [val]
         | None => out
         end) parts [].
Proof.
  revert acc; induction parts as [|p parts IH]; intros acc; cbn [fold_left].
  - now rewrite app_nil_r.
  - destruct (_as_float float_of_str (Some p)) as [x|]; [|apply IH].
    rewrite (IH (acc ++ [x])), (IH ([] ++ [x])). cbn [app].
    now rewrite <- app_assoc.
Qed.

Lemma csv_values_comma (a b : string) :
  csv_values float_of_str (a ++ String "," b)
  = csv_values float_of_str a ++ csv_values float_of_str b.
Proof.
  unfold csv_values, PyStr.replace_char.
  rewrite PyStrFacts.map_chars_app. cbn [PyStr.map_chars].
  change (if Ascii.eqb "," ";" then ","%char else ","%char) with ","%char.
  unfold split_on. rewrite split_on_go_app, fold_left_app.
  now rewrite csv_fold_acc.
Qed.

Lemma csv_values_semicolon (a b : string) :
  csv_values float_of_str (a ++ String ";" b)
  = csv_values float_of_str a ++ csv_values float_of_str b.
Proof.
  unfold csv_values, PyStr.replace_char.
  rewrite PyStrFacts.map_chars_app. cbn [PyStr.map_chars].
  change (if Ascii.eqb ";" ";" then ","%char else ";"%char) with ","%char.
  unfold split_on. rewrite split_on_go_app, fold_left_app.
  now rewrite csv_fold_acc.
Qed.

Lemma csv_values_field (t : string) :
  has_char (fun c => Ascii.eqb c ",") t = false ->
  has_char (fun c => Ascii.eqb c ";") t = false ->
  csv_values float_of_str t
  = match _as_float float_of_str (Some t) with
    | Some x => [x]
    | None => []
    end.
Proof.
  intros Hc Hs. unfold csv_values.
  rewrite (replace_char_plain ";" "," t Hs).
  unfold split_on. rewrite (split_on_go_plain "," t "" Hc). simpl.
  now destruct (_as_float float_of_str (Some t)).
Qed.

(** X5. [_parse_csv_floats] reads a text field by field: the comma and
    the semicolon both separate, the numbers of the fields come out in
    order, and a field that is no number (an empty one too) is dropped
    without stopping the rest. A comma is always a separator here, so a
    decimal comma is not read: "1,5" is the two fields "1" and "5". *)
Theorem parse_csv_floats_fields :
  (forall a b, _parse_csv_floats float_of_str (a ++ String "," b)
               = _parse_csv_floats float_of_str a ++ _parse_csv_floats float_of_str b)
  /\ (forall a b, _parse_csv_floats float_of_str (a ++ String ";" b)
                  = _parse_csv_floats float_of_str a ++ _parse_csv_floats float_of_str b)
  /\ (forall t,
        has_char (fun c => Ascii.eqb c ",") t = false ->
        has_char (fun c => Ascii.eqb c ";") t = false ->
        _parse_csv_floats float_of_str t
        = match _as_float float_of_str (Some t) with
          | Some x => [x]
          | None => []
          end)
  /\ _parse_csv_floats float_of_str "1,5"
     = _parse_csv_floats float_of_str "1" ++ _parse_csv_floats float_of_str "5".
Proof.
  split; [exact csv_values_comma|]. split; [exact csv_values_semicolon|].
  split; [exact csv_values_field|]. exact (csv_values_comma "1" "5").
Qed.

Lemma float_in_false (key : float) (seen : list float) :
  float_in key seen = false ->
  forall s, In s seen -> PrimFloat.eqb s key = false.
Proof.
  unfold float_in. intros H s Hs.
  destruct (PrimFloat.eqb s key) eqn:E; [|reflexivity].
  assert (Ht : existsb (fun s => PrimFloat.eqb s key) seen = true).
  { apply existsb_exists. now exists s. }
  congruence.
Qed.

Lemma dedup_step_ok (acc : list float * list float) (d : float) :
  dedup_ok round2 acc -> dedup_ok round2 (dedup_step round2 acc d).
Proof.
  intros [Hs Hp]. unfold dedup_step.
  destruct (float_in (round2 d) (fst acc)) eqn:E; [now split|].
  split; simpl.
  - rewrite Hs, map_app. reflexivity.
  - intros i j a b Hij Ha Hb.
    destruct (decide (j < length (snd acc))%nat) as [Hj|Hj].
    + rewrite lookup_app_l in Ha by lia. rewrite lookup_app_l in Hb by lia.
      now apply (Hp i j).
    + rewrite lookup_app_l in Ha.
      2:{ apply lookup_lt_Some in Hb. rewrite length_app in Hb. simpl in Hb. lia. }
      rewrite lookup_app_r in Hb by lia.
      destruct (j - length (snd acc))%nat; [|destruct n; discriminate].
      injection Hb as <-.
      apply (float_in_false _ _ E). rewrite Hs. apply in_map.
      apply list_elem_of_In. eapply list_elem_of_lookup_2. exact Ha.
Qed.

Lemma dedup_fold_ok (l : list float) (acc : list float * list float) :
  dedup_ok round2 acc -> dedup_ok round2 (fold_left (dedup_step round2) l acc).
Proof.
  revert acc; induction l as [|d l IH]; intros acc H; simpl; [exact H|].
  apply IH. now apply dedup_step_ok.
Qed.

Lemma dedup_fold_sublist (l : list float) (acc : list float * list float) :
  exists kept, snd (fold_left (dedup_step round2) l acc) = snd acc ++ kept
               /\ sublist kept l.
Proof.
  revert acc; induction l as [|d l IH]; intros acc; simpl.
  - exists []. split; [now rewrite app_nil_r | constructor].
  - destruct (IH (dedup_step round2 acc d)) as (kept & E & Hs).
    unfold dedup_step in E |- *.
    destruct (float_in (round2 d) (fst acc)).
    + exists kept. split; [exact E | now constructor].
    + exists (d :: kept). simpl in E. rewrite <- app_assoc in E.
      split; [exact E | now constructor].
Qed.

Lemma dedup_fold_keeps (l : list float) (acc : list float * list float) (d : float) :
  In d (snd acc) -> In d (snd (fold_left (dedup_step round2) l acc)).
Proof.
  revert acc; induction l as [|x l IH]; intros acc H; simpl; [exact H|].
  apply IH. unfold dedup_step.
  destruct (float_in (round2 x) (fst acc)); [exact H|].
  simpl. apply in_or_app. now left.
Qed.

Lemma dedup_fold_covers (l : list float) (acc : list float * list float) (d : float) :
  fst acc = map round2 (snd acc) ->
  In d l -> PrimFloat.eqb (round2 d) (round2 d) = true ->
  exists d', In d' (snd (fold_left (dedup_step round2) l acc))
             /\ PrimFloat.eqb (round2 d') (round2 d) = true.
Proof.
  revert acc; induction l as [|x l IH]; intros acc Hs Hin Hd; [destruct Hin|].
  simpl.
  assert (Hs' : fst (dedup_step round2 acc x) = map round2 (snd (dedup_step round2 acc x))).
  { unfold dedup_step. destruct (float_in (round2 x) (fst acc)); [exact Hs|].
    simpl. now rewrite Hs, map_app. }
  destruct Hin as [->|Hin]; [|now apply IH].
  destruct (float_in (round2 d) (fst acc)) eqn:E.
  - assert (Hst : dedup_step round2 acc d = acc)
      by (unfold dedup_step; now rewrite E).
    rewrite Hst.
    unfold float_in in E. apply existsb_exists in E as (s & Hsin & He).
    rewrite Hs in Hsin. apply in_map_iff in Hsin as (d' & <- & Hd').
    exists d'. split; [|exact He]. now apply dedup_fold_keeps.
  - assert (Hst : dedup_step round2 acc d
                  = (fst acc ++ [round2 d], snd acc ++ [d]))
      by (unfold dedup_step; now rewrite E).
    rewrite Hst.
    exists d. split; [|exact Hd]. apply dedup_fold_keeps.
    simpl. apply in_or_app. right. now left.
Qed.

(** X6. [_parse_depth_csv_cm] keeps, in their order, some of the numbers
    read from the text, the first one always: no two kept depths have
    equal keys [round(depth, 2)], and every number read whose key equals
    itself has a kept depth with an equal key. *)
Theorem parse_depth_csv_dedup (txt : string) :
  let raw := _parse_csv_floats float_of_str txt in
  let out := _parse_depth_csv_cm float_of_str round2 txt in
  sublist out raw
  /\ (forall i j a b, (i < j)%nat -> out !! i = Some a -> out !! j = Some b ->
        PrimFloat.eqb (round2 a) (round2 b) = false)
  /\ (forall d, In d raw -> PrimFloat.eqb (round2 d) (round2 d) = true ->
        exists d', In d' out /\ PrimFloat.eqb (round2 d') (round2 d) = true)
  /\ (forall d rest, raw = d :: rest -> exists rest', out = d :: rest').
Proof.
  intros raw out. unfold out, raw, _parse_depth_csv_cm, _parse_csv_floats.
  set (l := csv_values float_of_str txt).
  split; [|split; [|split]].
  - destruct (dedup_fold_sublist l ([], [])) as (kept & E & Hs).
    rewrite E. exact Hs.
  - assert (H0 : dedup_ok round2 ([], [])).
    { split; [reflexivity|]. intros i j a b _ Ha. discriminate. }
    exact (proj2 (dedup_fold_ok l _ H0)).
  - intros d Hin Hd. now apply dedup_fold_covers.
  - intros d rest ->. simpl. unfold dedup_step at 2. simpl.
    destruct (dedup_fold_sublist rest ([round2 d], [d])) as (kept & E & _).
    rewrite E. simpl. eauto.
Qed.

End CsvFacts.

(** Rounding to two decimals for the run below: exact on the values it
    meets there. *)
Example parse_depth_csv_run :
  _parse_depth_csv_cm PyFloat.decimal (fun d => d) "1.5; 10,1.5,x,,10 ; 5"
  = [1.5%float; 10%float; 5%float]
  /\ _parse_csv_floats PyFloat.decimal "1.5; 10,1.5,x,,10 ; 5"
     = [1.5%float; 10%float; 1.5%float; 10%float; 5%float].
Proof. split; vm_compute; reflexivity. Qed.

(** ** The depth-dose parser *)

Lemma find_index_none (p : string -> bool) (l : list string) :
  find_index p l = None <-> forall x, In x l -> p x = false.
Proof.
  induction l as [|a l IH]; simpl.
  - split; [intros _ x [] | reflexivity].
  - destruct (p a) eqn:E.
    + split; [discriminate|]. intros H. rewrite (H a (or_introl eq_refl)) in E.
      discriminate.
    + destruct (find_index p l) as [i|]; simpl.
      * split; [discriminate|]. intros H. exfalso.
        assert (Hn : Some i = None) by (apply IH; intros x Hx; apply H; now right).
        discriminate.
      * split; [|reflexivity]. intros _ x [<-|Hx]; [exact E|].
        now apply (proj1 IH).
Qed.



Section DepthDoseFacts.

Variable float_of_str : string -> option float.


Lemma pdd_sample_lengths (acc : list float * list float) (line : string) :
  (length (snd acc) <= length (fst acc))%nat ->
  (length (snd (pdd_sample float_of_str acc line))
   <= length (fst (pdd_sample float_of_str acc line)))%nat.
Proof.
  intros H. unfold pdd_sample.
  destruct (PyStr.split line) as [|p0 [|p1 rest]]; try exact H.
  destruct (float_of_str p0); [|exact H].
  destruct (float_of_str p1); simpl; rewrite ?length_app; simpl; lia.
Qed.

Lemma pdd_sample_equal (acc : list float * list float) (line : string) :
  half_sample float_of_str line = false ->
  length (snd acc) = length (fst acc) ->
  length (snd (pdd_sample float_of_str acc line))
  = length (fst (pdd_sample float_of_str acc line)).
Proof.
  intros Hh H. unfold pdd_sample, half_sample in *.
  destruct (PyStr.split line) as [|p0 [|p1 rest]]; try exact H.
  destruct (float_of_str p0); [|exact H].
  destruct (float_of_str p1); [|discriminate].
  simpl. rewrite !length_app. simpl. lia.
Qed.

Lemma pdd_fold_lengths (block : list string) (acc : list float * list float) :
  (length (snd acc) <= length (fst acc))%nat ->
  (length (snd (fold_left (pdd_sample float_of_str) block acc))
   <= length (fst (fold_left (pdd_sample float_of_str) block acc)))%nat.
Proof.
  revert acc; induction block as [|l block IH]; intros acc H; simpl; [exact H|].
  apply IH. now apply pdd_sample_lengths.
Qed.

Lemma pdd_fold_equal (block : list string) (acc : list float * list float) :
  (forall l, In l block -> half_sample float_of_str l = false) ->
  length (snd acc) = length (fst acc) ->
  length (snd (fold_left (pdd_sample float_of_str) block acc))
  = length (fst (fold_left (pdd_sample float_of_str) block acc)).
Proof.
  revert acc; induction block as [|l block IH]; intros acc Hb H; simpl; [exact H|].
  apply IH; [intros x Hx; apply Hb; now right|].
  apply pdd_sample_equal; [apply Hb; now left | exact H].
Qed.

Lemma slice_incl {A : Type} (a b : nat) (l : list A) (x : A) :
  In x (slice a b l) -> In x l.
Proof.
  unfold slice. intros H.
  rewrite <- (firstn_skipn a l). apply in_or_app. right.
  rewrite <- (firstn_skipn (b - a) (skipn a l)). apply in_or_app. now left.
Qed.

Lemma or_none_some {A : Type} (l k : list A) : or_none l = Some k -> k = l /\ l <> [].
Proof. destruct l; [discriminate|]. intros [= <-]. split; [reflexivity | discriminate]. Qed.

(** X8. The two results of [parse_mcc_pdd] are never empty lists (they
    are absent instead), and both are absent when the text has no
    BEGIN_DATA line or no END_DATA line. Ordinates come with abscissas,
    and never more of them; they are as many when no read line has a first
    token that converts and a second one that does not. *)
Theorem pdd_result_shape (lines : list string) :
  let r := parse_pdd_lines float_of_str lines in
  fst r <> Some [] /\ snd r <> Some []
  /\ (forall ys, snd r = Some ys ->
        exists xs, fst r = Some xs /\ (length ys <= length xs)%nat)
  /\ ((forall l, In l lines -> half_sample float_of_str l = false) ->
      forall xs, fst r = Some xs ->
        exists ys, snd r = Some ys /\ length ys = length xs)
  /\ ((forall l, In l lines -> PyStr.contains "BEGIN_DATA" l = false) ->
      r = (None, None))
  /\ ((forall l, In l lines -> PyStr.contains "END_DATA" l = false) ->
      r = (None, None)).
Proof.
  intros r. unfold r, parse_pdd_lines.
  destruct (find_index (PyStr.contains "BEGIN_DATA") lines) as [i0|] eqn:E0.
  2:{ simpl. repeat split; try discriminate; try reflexivity; intros; discriminate. }
  destruct (find_index (PyStr.contains "END_DATA") lines) as [i1|] eqn:E1.
  2:{ simpl. repeat split; try discriminate; try reflexivity; intros; discriminate. }
  set (block := slice (i0 + 1) i1 lines).
  pose proof (pdd_fold_lengths block ([], []) (le_n 0)) as Hle.
  unfold pdd_block. simpl fst. simpl snd.
  set (acc := fold_left (pdd_sample float_of_str) block ([], [])) in *.
  split; [now destruct (fst acc)|]. split; [now destruct (snd acc)|].
  split; [|split; [|split]].
  - intros ys Hy. apply or_none_some in Hy as [-> Hne].
    destruct (fst acc) as [|x xs] eqn:Ex.
    + destruct (snd acc); [congruence | simpl in Hle; lia].
    + exists (x :: xs). split; [reflexivity | exact Hle].
  - intros Hh xs Hx. apply or_none_some in Hx as [-> Hne].
    assert (Heq : length (snd acc) = length (fst acc)).
    { apply pdd_fold_equal; [|reflexivity].
      intros l Hl. apply Hh. eapply slice_incl. exact Hl. }
    destruct (snd acc) as [|y ys] eqn:Ey.
    + destruct (fst acc); [congruence | discriminate].
    + exists (y :: ys). split; [reflexivity | exact Heq].
  - intros H. apply find_index_none in H. congruence.
  - intros H. apply find_index_none in H. congruence.
Qed.

End DepthDoseFacts.


(** ** Normalisation and the transform of a curve *)

Lemma map_result_truediv (m : float) (l : list float) :
  PrimFloat.eqb m 0%float = false ->
  map_result (fun x => PyFloat.truediv x m) l = Ok (map (fun x => (x / m)%float) l).
Proof.
  intros Hm. induction l as [|x l IH]; [reflexivity|]. simpl.
  rewrite (truediv_nonzero x m Hm), IH. reflexivity.
Qed.

Lemma py_max_go_in (m : float) (l : list float) : In (py_max_go m l) (m :: l).
Proof.
  revert m; induction l as [|v l IH]; intros m; simpl; [now left|].
  destruct (IH (if PrimFloat.ltb m v then v else m)) as [H|H].
  - destruct (PrimFloat.ltb m v); [right; now left | now left].
  - right. now right.
Qed.

Lemma py_min_go_in (m : float) (l : list float) : In (py_min_go m l) (m :: l).
Proof.
  revert m; induction l as [|v l IH]; intros m; simpl; [now left|].
  destruct (IH (if PrimFloat.ltb v m then v else m)) as [H|H].
  - destruct (PrimFloat.ltb v m); [right; now left | now left].
  - right. now right.
Qed.

Lemma normalize_ok (values : list float) :
  normalize values = Ok (normalized values).
Proof.
  destruct values as [|v rest]; [reflexivity|]. unfold normalize, normalized.
  destruct (PrimFloat.eqb (py_max_go v rest) 0%float) eqn:E; [reflexivity|].
  now apply map_result_truediv.
Qed.

Lemma normalized_length (values : list float) :
  length (normalized values) = length values.
Proof.
  destruct values as [|v rest]; [reflexivity|]. unfold normalized.
  destruct (PrimFloat.eqb (py_max_go v rest) 0%float); [reflexivity|].
  apply length_map.
Qed.

(** X9. [normalize] never raises: the division is by the maximum of the
    values, one of them, and is not carried out when that maximum equals
    zero (the values then come back as they are) or when there is no
    value. The result has as many values as the input. *)
Theorem normalize_guarded (values : list float) :
  exists out,
    normalize values = Ok out
    /\ length out = length values
    /\ (values = [] -> out = [])
    /\ forall v rest, values = v :: rest ->
         In (py_max_go v rest) values
         /\ (PrimFloat.eqb (py_max_go v rest) 0%float = true -> out = values)
         /\ (PrimFloat.eqb (py_max_go v rest) 0%float = false ->
             out = map (fun x => (x / py_max_go v rest)%float) values).
Proof.
  exists (normalized values). split; [apply normalize_ok|].
  split; [apply normalized_length|]. split; [now intros ->|].
  intros v rest ->. split; [apply py_max_go_in|]. unfold normalized.
  split; intros E; now rewrite E.
Qed.

(** X10. [_transform_xy] never raises and keeps the number of points of
    both sequences; each abscissa is shifted by [x_shift], each ordinate
    becomes [(y + y_offset) * y_scale], and with normalisation on these
    ordinates go through [normalize]. *)
Theorem transform_xy_keeps_points (normalize_on : bool) (xs ys : list float)
    (row : Transform) :
  exists xs_t ys_t,
    _transform_xy normalize_on xs ys row = Ok (xs_t, ys_t)
    /\ length xs_t = length xs /\ length ys_t = length ys
    /\ xs_t = map (fun x => (x + x_shift row)%float) xs
    /\ (normalize_on = false ->
        ys_t = map (fun y => ((y + y_offset row) * y_scale row)%float) ys)
    /\ (normalize_on = true ->
        normalize (map (fun y => ((y + y_offset row) * y_scale row)%float) ys)
        = Ok ys_t).
Proof.
  unfold _transform_xy. destruct normalize_on.
  - rewrite normalize_ok. simpl. eexists _, _. split; [reflexivity|].
    rewrite normalized_length, !length_map.
    repeat split; try reflexivity; discriminate.
  - simpl. eexists _, _. split; [reflexivity|]. rewrite !length_map.
    repeat split; try reflexivity; discriminate.
Qed.

(** A curve of zeros is left alone; another one is divided by its
    maximum. *)
Example normalize_run :
  normalize [0%float; 0%float] = Ok [0%float; 0%float]
  /\ normalize [1%float; 4%float; 2%float] = Ok [0.25%float; 1%float; 0.5%float]
  /\ _transform_xy true [0%float; 1%float] [1%float; 3%float]
       (mkTransform 0.5%float 2%float 1%float)
     = Ok ([0.5%float; 1.5%float], [0.5%float; 1%float]).
Proof. repeat split; vm_compute; reflexivity. Qed.

(** ** The reference plane of the jaws *)

Section JawFacts.

Variable float_of_str : string -> option float.

(** X11. In [_jaws_from] the two jaw dimensions do not depend on the depth
    given as a hint. When the field definition names the isocentre
    ("ISO" or "SAD") the reference distance is 100 whatever the SSD and
    the depth; the reference distance is undetermined exactly when the
    definition does not name the isocentre and the SSD is unknown. *)
Theorem jaws_reference_plane (meta : Meta) (d d' : option float) :
  fst (_jaws_from float_of_str meta d) = fst (_jaws_from float_of_str meta d')
  /\ (names_iso meta = true ->
      snd (_jaws_from float_of_str meta d) = Some 100%float)
  /\ (snd (_jaws_from float_of_str meta d) = None
      <-> names_iso meta = false /\ _ssd_cm_from_mm float_of_str meta = None)
  /\ (names_iso meta = false ->
      forall ssd, _ssd_cm_from_mm float_of_str meta = Some ssd ->
        PyStr.contains "SSD" (refdef_of meta) = true ->
        snd (_jaws_from float_of_str meta d) = Some ssd).
Proof.
  unfold _jaws_from, names_iso, refdef_of.
  set (refdef := PyStr.upper (PyStr.strip (or_empty
         (_pick meta ["FIELD_DEFINED"; "FIELD_REFERENCE"; "FIELD_AT"])))).
  set (jx := _as_float float_of_str (_pick meta ["JAW_X"; "FIELD_X"; "COLL_X"])).
  set (jy := _as_float float_of_str (_pick meta ["JAW_Y"; "FIELD_Y"; "COLL_Y"])).
  set (rx := _as_float float_of_str (_pick meta ["FIELD_INPLANE"; "FIELD_INPLANE"])).
  set (ry := _as_float float_of_str (_pick meta ["FIELD_CROSSPLANE"; "FIELD_CROSSPLANE"])).
  set (rd := _as_float float_of_str (_pick meta ["FIELD_DEPTH"])).
  set (iso := PyStr.contains "ISO" refdef || PyStr.contains "ISOCENTER" refdef
              || PyStr.contains "SAD" refdef).
  destruct (_ssd_cm_from_mm float_of_str meta) as [ssd|];
    destruct jx, jy, rx, ry, rd, iso,
      (PyStr.contains "SSD" refdef), (PyStr.contains "DEPTH" refdef), d, d';
    simpl; repeat split; try congruence; try discriminate;
    try (intros [? ?]; congruence); try (intros; congruence).
Qed.

End JawFacts.

(** A field defined at the isocentre keeps the distance 100 at any
    depth; without a definition the plane follows the depth. *)
Example jaws_reference_plane_run :
  snd (_jaws_from PyFloat.decimal [("SSD", "900"); ("FIELD_DEFINED", "Isocenter")]
         (Some 250%float)) = Some 100%float
  /\ snd (_jaws_from PyFloat.decimal [("SSD", "900")] (Some 250%float))
     = Some 115%float
  /\ snd (_jaws_from PyFloat.decimal [("JAW_X", "10")] (Some 250%float)) = None.
Proof. repeat split; vm_compute; reflexivity. Qed.

(** ** Step of a list of positions *)

Lemma step_diffs_members (xs : list float) (d : float) :
  In d (step_diffs xs) <->
  exists i a b,
    xs !! i = Some a /\ xs !! S i = Some b
    /\ d = abs (b - a)%float /\ PrimFloat.ltb 1e-6%float d = true.
Proof.
  induction xs as [|a xs IH]; [split; [intros [] | intros (i & a & b & H & _); discriminate]|].
  destruct xs as [|b xs].
  { split; [intros []|]. intros (i & a' & b' & _ & H & _). destruct i; discriminate. }
  cbn [step_diffs].
  split.
  - intros H.
    assert (Hcase : (d = abs (b - a)%float /\ PrimFloat.ltb 1e-6%float d = true)
                    \/ In d (step_diffs (b :: xs))).
    { destruct (PrimFloat.ltb 1e-6%float (abs (b - a)%float)) eqn:E.
      - destruct H as [<-|H]; [left; now split | now right].
      - now right. }
    destruct Hcase as [[-> Hd]|Hin].
    + exists 0%nat, a, b. repeat split; assumption.
    + apply IH in Hin as (i & a' & b' & Ha & Hb & Hd & Hl).
      exists (S i), a', b'. repeat split; assumption.
  - intros (i & a' & b' & Ha & Hb & Hd & Hl).
    destruct i as [|i].
    + injection Ha as <-. injection Hb as <-. subst d. rewrite Hl. now left.
    + assert (Hin : In d (step_diffs (b :: xs))).
      { apply IH. exists i, a', b'. repeat split; assumption. }
      destruct (PrimFloat.ltb 1e-6%float (abs (b - a)%float)); [now right | exact Hin].
Qed.

Section StepFacts.

Variable float_of_str : string -> option float.

(** X12. [_step_from_positions_csv] gives a result exactly when the text
    is not empty, holds at least two numbers and two neighbours among them
    differ by more than [1e-6] (equal neighbours are not steps). The two
    steps it returns are each the distance [|b - a|] between two
    neighbours that exceeds [1e-6], and the flag says whether they differ
    by at most [1e-3]. *)
Theorem step_from_positions_neighbours (txt : string) :
  let xs := _parse_csv_floats float_of_str txt in
  (_step_from_positions_csv float_of_str (Some txt) = None
   <-> txt = EmptyString \/ (length xs < 2)%nat \/ step_diffs xs = [])
  /\ (forall dmin dmax fixed,
        _step_from_positions_csv float_of_str (Some txt) = Some (dmin, dmax, fixed) ->
        In dmin (step_diffs xs) /\ In dmax (step_diffs xs)
        /\ fixed = PrimFloat.leb (abs (dmax - dmin)%float) 1e-3%float)
  /\ (forall d, In d (step_diffs xs) <->
        exists i a b,
          xs !! i = Some a /\ xs !! S i = Some b
          /\ d = abs (b - a)%float /\ PrimFloat.ltb 1e-6%float d = true)
  /\ _step_from_positions_csv float_of_str None = None.
Proof.
  intros xs. unfold _step_from_positions_csv. fold xs.
  split; [|split; [|split; [apply step_diffs_members | reflexivity]]].
  - destruct txt as [|c txt]; simpl PyStr.is_empty; cbv iota.
    { split; [now left | reflexivity]. }
    destruct (length xs <? 2)%nat eqn:El.
    { apply Nat.ltb_lt in El. split; [intros _; right; now left | reflexivity]. }
    apply Nat.ltb_ge in El.
    destruct (step_diffs xs) as [|d ds].
    + split; [intros _; right; now right | reflexivity].
    + split; [discriminate|]. intros [H|[H|H]]; [discriminate | lia | discriminate].
  - intros dmin dmax fixed.
    destruct (PyStr.is_empty txt); [discriminate|].
    destruct (length xs <? 2)%nat; [discriminate|].
    destruct (step_diffs xs) as [|d ds]; [discriminate|].
    intros [= <- <- <-].
    split; [apply py_min_go_in|]. split; [apply py_max_go_in | reflexivity].
Qed.

End StepFacts.

(** Positions with a repeated one: the repetition is no step. *)
Example step_from_positions_run :
  _step_from_positions_csv PyFloat.decimal (Some "0;1;2;2;3")
  = Some (1%float, 1%float, true)
  /\ _step_from_positions_csv PyFloat.decimal (Some "0;1;2.5")
     = Some (1%float, 1.5%float, false)
  /\ _step_from_positions_csv PyFloat.decimal (Some "3;3") = None.
Proof. repeat split; vm_compute; reflexivity. Qed.

(** ** Style allocation over time *)

Lemma get_color_cases (app : App) (p v : string) :
  (exists sym,
      color_map_of app (color_ns p) !! _normalize_key v = Some sym
      /\ _get_color_for app p v = Ok (sym, app))
  \/ (exists sym,
        color_map_of app (color_ns p) !! _normalize_key v = None
        /\ _next_from_pool (used_symbols (color_map_of app (color_ns p))) OKABE_ITO
           = Ok sym
        /\ _get_color_for app p v
           = Ok (sym, assigned color_maps set_color_maps app (color_ns p)
                        (_normalize_key v) sym)).
Proof.
  rewrite get_color_allocate.
  change (color_map_of app (color_ns p)) with (ns_map color_maps app (color_ns p)).
  destruct (ns_map color_maps app (color_ns p) !! _normalize_key v) as [s0|] eqn:E.
  - left. exists s0. split; [reflexivity|].
    now apply (allocate_found _ _ _ color_set_get).
  - right.
    destruct (allocate_fresh OKABE_ITO color_maps set_color_maps
                okabe_ito_nonempty app (color_ns p) v E) as (s0 & Hs & _ & Ha).
    exists s0. now repeat split.
Qed.

Lemma get_marker_cases (app : App) (p v : string) :
  (PyStr.truthy p = false /\ _get_marker_for app p v = Ok ("o", app))
  \/ (PyStr.truthy p = true /\ exists sym,
        marker_map_of app p !! _normalize_key v = Some sym
        /\ _get_marker_for app p v = Ok (sym, app))
  \/ (PyStr.truthy p = true /\ exists sym,
        marker_map_of app p !! _normalize_key v = None
        /\ _next_from_pool (used_symbols (marker_map_of app p)) MARKER_POOL = Ok sym
        /\ _get_marker_for app p v
           = Ok (sym, assigned marker_maps set_marker_maps app p
                        (_normalize_key v) sym)).
Proof.
  rewrite get_marker_allocate.
  destruct (PyStr.truthy p) eqn:Ep; simpl; [|now left].
  right. change (marker_map_of app p) with (ns_map marker_maps app p).
  destruct (ns_map marker_maps app p !! _normalize_key v) as [s0|] eqn:E.
  - left. split; [reflexivity|]. exists s0. split; [reflexivity|].
    now apply (allocate_found _ _ _ marker_set_get).
  - right. split; [reflexivity|].
    destruct (allocate_fresh MARKER_POOL marker_maps set_marker_maps
                marker_pool_nonempty app p v E) as (s0 & Hs & _ & Ha).
    exists s0. now repeat split.
Qed.

Lemma assigned_color_map (app : App) (key norm sym ns : string) :
  color_map_of (assigned color_maps set_color_maps app key norm sym) ns
  = if decide (key = ns) then <[norm := sym]> (color_map_of app key)
    else color_map_of app ns.
Proof.
  change color_map_of with (ns_map color_maps).
  destruct (decide (key = ns)) as [<-|Hne].
  - apply (ns_map_assigned_same _ _ color_get_set).
  - now apply (ns_map_assigned_other _ _ color_get_set).
Qed.

Lemma assigned_marker_map (app : App) (key norm sym ns : string) :
  marker_map_of (assigned marker_maps set_marker_maps app key norm sym) ns
  = if decide (key = ns) then <[norm := sym]> (marker_map_of app key)
    else marker_map_of app ns.
Proof.
  change marker_map_of with (ns_map marker_maps).
  destruct (decide (key = ns)) as [<-|Hne].
  - apply (ns_map_assigned_same _ _ marker_get_set).
  - now apply (ns_map_assigned_other _ _ marker_get_set).
Qed.

(** One call keeps every entry of every map. *)
Lemma run_call_keeps (app : App) (c : StyleCall) :
  exists app1,
    run_call app c = Ok app1
    /\ (forall ns k s, color_map_of app ns !! k = Some s ->
          color_map_of app1 ns !! k = Some s)
    /\ (forall ns k s, marker_map_of app ns !! k = Some s ->
          marker_map_of app1 ns !! k = Some s).
Proof.
  destruct c as [p v|p v]; simpl.
  - destruct (get_color_cases app p v) as [(sym & _ & ->)|(sym & Hn & _ & ->)]; simpl.
    + exists app. auto.
    + eexists. split; [reflexivity|]. split.
      * intros ns k s Hk. rewrite assigned_color_map.
        destruct (decide (color_ns p = ns)) as [<-|]; [|exact Hk].
        rewrite lookup_insert_ne; [exact Hk|]. intros <-. congruence.
      * intros ns k s Hk. unfold marker_map_of in *. exact Hk.
  - destruct (get_marker_cases app p v)
      as [[_ ->]|[[_ (sym & _ & ->)]|[_ (sym & Hn & _ & ->)]]]; simpl.
    + exists app. auto.
    + exists app. auto.
    + eexists. split; [reflexivity|]. split.
      * intros ns k s Hk. unfold color_map_of in *. exact Hk.
      * intros ns k s Hk. rewrite assigned_marker_map.
        destruct (decide (p = ns)) as [<-|]; [|exact Hk].
        rewrite lookup_insert_ne; [exact Hk|]. intros <-. congruence.
Qed.

(** X13. Whatever calls of the two allocators follow, in whatever
    namespaces, they all return, and a value that holds a colour or a
    marker in a namespace keeps that very symbol: an entry of a style map
    is never changed nor removed. *)
Theorem style_entries_are_stable (cs : list StyleCall) (app : App) :
  exists app',
    run_calls app cs = Ok app'
    /\ (forall ns k s, color_map_of app ns !! k = Some s ->
          color_map_of app' ns !! k = Some s)
    /\ (forall ns k s, marker_map_of app ns !! k = Some s ->
          marker_map_of app' ns !! k = Some s).
Proof.
  revert app; induction cs as [|c cs IH]; intros app; simpl.
  - exists app. auto.
  - destruct (run_call_keeps app c) as (app1 & -> & Hc & Hm). simpl.
    destruct (IH app1) as (app' & E & Hc' & Hm').
    exists app'. split; [exact E|]. split; intros ns k s H; auto.
Qed.


Lemma first_unused_skip (used : gset string) (a b : list string) :
  (forall x, x ∈ a -> x ∈ used) ->
  first_unused used (a ++ b) = first_unused used b.
Proof.
  induction a as [|x a IH]; intros H; [reflexivity|]. simpl.
  destruct (decide (x ∈ used)) as [_|Hx].
  - apply IH. intros y Hy. apply H. now right.
  - exfalso. apply Hx, H. now left.
Qed.

Lemma first_unused_next (used : gset string) (pool : list string) (i : nat)
    (s : string) :
  NoDup pool -> pool !! i = Some s ->
  (forall x, x ∈ used <-> x ∈ take i pool) ->
  first_unused used pool = Some s.
Proof.
  intros Hnd Hi Hused.
  rewrite <- (take_drop_middle pool i s Hi).
  rewrite first_unused_skip by (intros x Hx; now apply Hused).
  simpl. destruct (decide (s ∈ used)) as [Hs|_]; [|reflexivity].
  exfalso. apply Hused in Hs. apply elem_of_take in Hs as (j & Hj & Hlt).
  pose proof (NoDup_lookup pool i j s Hnd Hi Hj). lia.
Qed.

Lemma colors_for_in_order (ns : string) (values : list string) :
  forall (app : App) (i : nat),
    (forall s, s ∈ used_symbols (color_map_of app (color_ns ns))
               <-> s ∈ take i OKABE_ITO) ->
    (forall v, In v values ->
       color_map_of app (color_ns ns) !! _normalize_key v = None) ->
    NoDup (map _normalize_key values) ->
    (i + length values <= length OKABE_ITO)%nat ->
    exists app',
      colors_for app ns values
      = Ok (take (length values) (drop i OKABE_ITO), app').
Proof.
  induction values as [|v values IH]; intros app i Hused Hnew Hnd Hlen.
  - exists app. reflexivity.
  - cbn [colors_for].
    assert (Hi : (i < length OKABE_ITO)%nat) by (cbn [length] in Hlen; lia).
    destruct (lookup_lt_is_Some_2 OKABE_ITO i Hi) as [s0 Hs0].
    destruct (get_color_cases app ns v) as [(sym & Hs & _)|(sym & Hn & Hp & E)].
    { rewrite (Hnew v (or_introl eq_refl)) in Hs. discriminate. }
    assert (Hsym : sym = s0).
    { unfold _next_from_pool in Hp.
      rewrite (first_unused_next _ _ i s0 okabe_ito_nodup Hs0 Hused) in Hp.
      now injection Hp as <-. }
    subst sym. rewrite E. cbn [bind snd fst].
    simpl map in Hnd. apply NoDup_cons in Hnd as [Hv Hnd].
    destruct (IH (assigned color_maps set_color_maps app (color_ns ns)
                    (_normalize_key v) s0) (S i)) as (app' & E').
    + intros s. rewrite assigned_color_map.
      destruct (decide (color_ns ns = color_ns ns)) as [_|]; [|congruence].
      unfold used_symbols. rewrite map_img_insert_notin_L by exact Hn.
      rewrite (take_S_r _ _ _ Hs0), elem_of_union, elem_of_singleton, elem_of_app.
      rewrite list_elem_of_singleton.
      specialize (Hused s). unfold used_symbols in Hused. tauto.
    + intros v' Hv'. rewrite assigned_color_map.
      destruct (decide (color_ns ns = color_ns ns)) as [_|]; [|congruence].
      rewrite lookup_insert_ne; [apply Hnew; now right|].
      intros Heq. apply Hv. apply list_elem_of_In. rewrite Heq.
      now apply in_map.
    + exact Hnd.
    + cbn [length] in Hlen. lia.
    + rewrite E'. cbn [bind snd fst]. eexists. f_equal. f_equal.
      rewrite (drop_S _ _ _ Hs0). reflexivity.
Qed.

(** X14. In a colour namespace that holds nothing yet, values with
    distinct normalized forms, eight at most, receive the colours of the
    pool in the order of the pool. *)
Theorem fresh_namespace_follows_pool (app : App) (ns : string)
    (values : list string) :
  color_map_of app (color_ns ns) = ∅ ->
  NoDup (map _normalize_key values) ->
  (length values <= length OKABE_ITO)%nat ->
  exists app',
    colors_for app ns values = Ok (take (length values) OKABE_ITO, app').
Proof.
  intros He Hnd Hlen.
  apply (colors_for_in_order ns values app 0).
  - intros s. rewrite He. unfold used_symbols. rewrite map_img_empty_L.
    simpl. split; [intros H; now apply not_elem_of_empty in H | intros H; inversion H].
  - intros v _. rewrite He. apply lookup_empty.
  - exact Hnd.
  - simpl. exact Hlen.
Qed.

Lemma fresh_namespace_follows_pool_run :
  exists app',
    colors_for default_app "energy" ["6 MV"; "10 MV"; "6 FFF"]
    = Ok (["#0072B2"; "#E69F00"; "#009E73"], app').
Proof.
  apply (fresh_namespace_follows_pool default_app "energy" ["6 MV"; "10 MV"; "6 FFF"]).
  - vm_compute. reflexivity.
  - apply (bool_decide_unpack _). vm_compute. reflexivity.
  - simpl. lia.
Defined.

(** ** The profile parser as a state machine *)

Lemma set_in_data_same (st : PState) :
  in_data st = false -> set_in_data false st = st.
Proof. destruct st; simpl; now intros ->. Qed.

Section ParserMachine.

Variable float_of_str : string -> option float.

Lemma run_bind_app (l1 l2 : list string) (st : PState) :
  run float_of_str st (l1 ++ l2)
  = (let! st1 := run float_of_str st l1 in run float_of_str st1 l2).
Proof.
  revert st; induction l1 as [|raw l1 IH]; intros st; simpl; [reflexivity|].
  destruct (step float_of_str st raw) as [st'|e]; simpl; [apply IH | reflexivity].
Qed.

Lemma end_then_finish (st : PState) :
  (let! st1 := step float_of_str st "END_DATA" in finish st1) = finish st.
Proof.
  rewrite step_end. unfold finish.
  destruct (in_data st) eqn:Hin.
  - destruct (commit st) as [c|e]; reflexivity.
  - reflexivity.
Qed.

Lemma end_then_curvetype (st : PState) (ct : string) :
  PyStr.startswith "SCAN_CURVETYPE=" (PyStr.strip ct) = true ->
  (let! st1 := step float_of_str st "END_DATA" in step float_of_str st1 ct)
  = step float_of_str st ct.
Proof.
  intros Hct. rewrite step_end.
  destruct (in_data st) eqn:Hin.
  - destruct (commit st) as [c|e] eqn:Ec; simpl.
    + unfold step. rewrite Hct, Hin, Ec. reflexivity.
    + unfold step. rewrite Hct, Hin, Ec. reflexivity.
  - simpl. now rewrite (set_in_data_same st Hin).
Qed.

(** X16. The profile parser reads an [END_DATA] line before every
    [SCAN_CURVETYPE=] line and at the end of the input whether it is
    written or not: leaving that line out there changes nothing of the
    outcome, be it a result or an error. *)
Theorem end_data_is_implied (l1 l2 : list string) (ct : string) :
  PyStr.startswith "SCAN_CURVETYPE=" (PyStr.strip ct) = true ->
  parse_lines float_of_str (l1 ++ ["END_DATA"]) = parse_lines float_of_str l1
  /\ parse_lines float_of_str (l1 ++ "END_DATA" :: ct :: l2)
     = parse_lines float_of_str (l1 ++ ct :: l2).
Proof.
  intros Hct. unfold parse_lines. rewrite !run_bind_app. split.
  - destruct (run float_of_str init_state l1) as [st|e]; [|reflexivity].
    cbn [bind run].
    pose proof (end_then_finish st) as H.
    destruct (step float_of_str st "END_DATA") as [s|e]; exact H.
  - destruct (run float_of_str init_state l1) as [st|e]; [|reflexivity].
    cbn [bind run].
    pose proof (end_then_curvetype st ct Hct) as H.
    destruct (step float_of_str st "END_DATA") as [s|e]; simpl in H |- *.
    + now rewrite H.
    + now rewrite <- H.
Qed.





Lemma run_without_depth (cross : bool) (lines : list string) (st : PState)
    (l : list Curve) :
  lines <> [] ->
  (forall raw, In raw lines -> is_Some (sample_of float_of_str raw)) ->
  in_data st = false ->
  res st !! (if cross then "crossplane" else "inplane") = Some l ->
  run float_of_str st (render_without_depth cross lines)
  = Ok (mkPState (Some (if cross then "crossplane" else "inplane"))
          (current_depth st) false [] []
          (<[(if cross then "crossplane" else "inplane") :=
               l ++ [mkCurve (current_depth st)
                       (map fst (samples_of float_of_str lines))
                       (map snd (samples_of float_of_str lines))]]> (res st))).
Proof.
  intros Hne Hall Hin Hl. unfold render_without_depth.
  change ([?a; ?b0] ++ ?r) with (a :: b0 :: r).
  cbn [run]. rewrite (step_curvetype float_of_str st cross Hin). cbn [bind].
  rewrite step_begin. cbn [bind].
  erewrite (run_app float_of_str);
    [|apply run_samples; [reflexivity | now destruct cross | exact Hall]].
  cbn [run]. rewrite step_end. cbn [in_data set_bufs].
  pose proof (samples_nonempty float_of_str lines Hne Hall) as Hs.
  unfold commit. cbn [current_kind set_bufs set_in_data set_depth set_kind
    buf_xs buf_ys res current_depth app].
  destruct (samples_of float_of_str lines) as [|[x y] ss] eqn:Es; [congruence|].
  destruct cross; cbn; rewrite Hl; reflexivity.
Qed.

(** X18. The depth is a variable of the whole reading, not of a block: a
    profile block written without a [SCAN_DEPTH=] line is emitted with the
    depth of the block before it. *)
Theorem depth_carries_over (b : Block) (cross : bool) (lines : list string)
    (st : PState) :
  well_formed float_of_str b ->
  lines <> [] ->
  (forall raw, In raw lines -> is_Some (sample_of float_of_str raw)) ->
  in_data st = false -> res_ok (res st) ->
  exists st' l,
    run float_of_str st (render_block b ++ render_without_depth cross lines)
    = Ok st'
    /\ res st' !! (if cross then "crossplane" else "inplane")
       = Some (l ++ [mkCurve (float_of_str (b_depth b))
                       (map fst (samples_of float_of_str lines))
                       (map snd (samples_of float_of_str lines))]).
Proof.
  intros Hb Hne Hall Hin (Hi & Hc & _).
  assert (Hsome : forall k, k = "inplane" \/ k = "crossplane" ->
                            is_Some (res st !! k)).
  { intros k [->| ->]; assumption. }
  destruct (Hsome (block_kind b)) as [l0 Hl0].
  { unfold block_kind. destruct (b_cross b); auto. }
  rewrite run_bind_app, (run_block float_of_str b st l0 Hb Hin Hl0). cbn [bind].
  set (st1 := mkPState _ _ _ _ _ _).
  assert (Hl1 : is_Some (res st1 !! (if cross then "crossplane" else "inplane"))).
  { subst st1. cbn [res].
    destruct (decide (block_kind b = (if cross then "crossplane" else "inplane")))
      as [->|Hne'].
    - rewrite lookup_insert_eq. eauto.
    - rewrite lookup_insert_ne by exact Hne'. apply Hsome. destruct cross; auto. }
  destruct Hl1 as [l1 Hl1].
  rewrite (run_without_depth cross lines st1 l1 Hne Hall eq_refl Hl1).
  eexists _, l1. split; [reflexivity|]. cbn [res current_depth].
  subst st1. cbn [current_depth]. now rewrite lookup_insert_eq.
Qed.

End ParserMachine.

Lemma end_data_is_implied_run :
  parse_lines PyFloat.decimal
    (["SCAN_CURVETYPE=INPLANE_PROFILE"; "BEGIN_DATA"; "1.0 2.0"] ++ ["END_DATA"])
  = parse_lines PyFloat.decimal
      ["SCAN_CURVETYPE=INPLANE_PROFILE"; "BEGIN_DATA"; "1.0 2.0"]
  /\ parse_lines PyFloat.decimal
       (["SCAN_CURVETYPE=INPLANE_PROFILE"; "BEGIN_DATA"; "1.0 2.0"]
        ++ "END_DATA" :: "SCAN_CURVETYPE=CROSSPLANE_PROFILE"
             :: ["BEGIN_DATA"; "3.0 4.0"])
     = parse_lines PyFloat.decimal
         (["SCAN_CURVETYPE=INPLANE_PROFILE"; "BEGIN_DATA"; "1.0 2.0"]
          ++ "SCAN_CURVETYPE=CROSSPLANE_PROFILE" :: ["BEGIN_DATA"; "3.0 4.0"]).
Proof.
  apply (end_data_is_implied PyFloat.decimal
           ["SCAN_CURVETYPE=INPLANE_PROFILE"; "BEGIN_DATA"; "1.0 2.0"]
           ["BEGIN_DATA"; "3.0 4.0"] "SCAN_CURVETYPE=CROSSPLANE_PROFILE").
  reflexivity.
Defined.


Lemma depth_carries_over_run :
  exists st' l,
    run PyFloat.decimal init_state
      (render_block (mkBlock false "100.0" ["1.0 2.0"])
       ++ render_without_depth true ["3.0 4.0"])
    = Ok st'
    /\ res st' !! "crossplane"
       = Some (l ++ [mkCurve (PyFloat.decimal "100.0")
                       (map fst (samples_of PyFloat.decimal ["3.0 4.0"]))
                       (map snd (samples_of PyFloat.decimal ["3.0 4.0"]))]).
Proof.
  apply (depth_carries_over PyFloat.decimal (mkBlock false "100.0" ["1.0 2.0"])
           true ["3.0 4.0"] init_state).
  - split; [discriminate|]. split; [reflexivity|].
    intros l [<-|[]]. vm_compute. eauto.
  - discriminate.
  - intros l [<-|[]]. vm_compute. eauto.
  - reflexivity.
  - apply init_state_ok.
Defined.
